(** * Touchless mouse: the gesture translator of [translator.py]

    A shallow embedding of the geometry helpers ([get_3d_distance],
    [get_hand_coords], [is_shaking], [is_fist]) and of the two methods of
    the [Translator] class that turn a current and a previous hand
    skeleton into keyboard and mouse calls.

    Numbers are Python floats, that is IEEE 754 binary64 values: they are
    modelled by Rocq's primitive [float], whose operations are the same
    correctly rounded binary64 operations.  Python exceptions are explicit
    ([Raise]), and the calls made to the [keyboard] and [mouse] modules are
    recorded, in order, in the state the methods run in. *)

From Stdlib Require Import Floats ZArith List String Bool Lia.
Import ListNotations.

Set Warnings "-inexact-float".

Local Open Scope float_scope.

(** ** Exceptions and results *)

Inductive exn : Set :=
| IndexError
| OverflowError
| ValueError.

Inductive result (A : Type) : Type :=
| Ok (a : A)
| Raise (e : exn).

Arguments Ok {A} a.
Arguments Raise {A} e.

Definition bind_result {A B : Type} (r : result A) (k : A -> result B) : result B :=
  match r with
  | Ok a => k a
  | Raise e => Raise e
  end.

Declare Scope result_scope.
Delimit Scope result_scope with result.
Notation "x <- r ;; k" := (bind_result r (fun x => k))
  (at level 61, r at next level, right associativity) : result_scope.

(** ** Python's float operations that are not a plain binary64 operation *)

Module PyFloat.

(** [a > b] *)
Definition gt (a b : float) : bool := b <? a.

(** [v ** 2] on a float.  CPython answers NaN for NaN and plus infinity
    for an infinity without calling the C library, and raises
    [OverflowError] when the power of a finite operand is out of range.
    The power itself is taken as the correctly rounded product [v * v]. *)
Definition pow2 (v : float) : result float :=
  if is_nan v then Ok v
  else if is_infinity v then Ok infinity
  else
    let r := v * v in
    if is_infinity r then Raise OverflowError else Ok r.

(** [math.sqrt]: [ValueError] below zero. *)
Definition math_sqrt (v : float) : result float :=
  if v <? 0 then Raise ValueError else Ok (sqrt v).

(** The integer part of m * 2^e, for 0 < m: the quotient rounds down. *)
Definition int_part (m : positive) (e : Z) : Z := Z.shiftl (Zpos m) e.

(** [int(v)]: truncation toward zero; [ValueError] on NaN and
    [OverflowError] on an infinity. *)
Definition int_of_spec (f : spec_float) : result Z :=
  match f with
  | S754_zero _ => Ok 0%Z
  | S754_finite s m e => Ok (cond_Zopp s (int_part m e))
  | S754_infinity _ => Raise OverflowError
  | S754_nan => Raise ValueError
  end.

Definition int (v : float) : result Z := int_of_spec (Prim2SF v).

(** [round(v)]: the nearest integer, ties to the even one.  The source
    never calls it; the specification's scroll amount is worded with
    it. *)
Definition round_part (m : positive) (e : Z) : Z :=
  match e with
  | Zneg k =>
      let q := Z.shiftr (Zpos m) (Zpos k) in
      let r := Z.land (Zpos m) (Z.ones (Zpos k)) in
      let half := Z.shiftl 1 (Zpos k - 1) in
      match Z.compare r half with
      | Lt => q
      | Gt => (q + 1)%Z
      | Eq => if Z.even q then q else (q + 1)%Z
      end
  | _ => Z.shiftl (Zpos m) e
  end.

Definition round_of_spec (f : spec_float) : result Z :=
  match f with
  | S754_zero _ => Ok 0%Z
  | S754_finite s m e => Ok (cond_Zopp s (round_part m e))
  | S754_infinity _ => Raise OverflowError
  | S754_nan => Raise ValueError
  end.

Definition round (v : float) : result Z := round_of_spec (Prim2SF v).

End PyFloat.

(** ** Landmarks *)

(** One landmark: the dict [{"x": .., "y": .., "z": ..}] the methods build
    from each mediapipe landmark. *)
Record coord : Set := { x : float; y : float; z : float }.

(** [coords[i]] for a literal index [i >= 0]. *)
Definition index (coords : list coord) (i : nat) : result coord :=
  match nth_error coords i with
  | Some c => Ok c
  | None => Raise IndexError
  end.

(** The dict built by [get_hand_coords]. *)
Record hand : Set := {
  index_tip : coord;
  middle_tip : coord;
  ring_tip : coord;
  pinkie_tip : coord;
  thumb_tip : coord;
  palm : coord
}.

(** ** Geometry helpers *)

Definition get_3d_distance (coord1 coord2 : coord) : result float :=
  (dx <- PyFloat.pow2 (x coord1 - x coord2) ;;
   dy <- PyFloat.pow2 (y coord1 - y coord2) ;;
   dz <- PyFloat.pow2 (z coord1 - z coord2) ;;
   PyFloat.math_sqrt (dx + dy + dz))%result.

Definition get_hand_coords (coords : list coord) : result hand :=
  (i <- index coords 8 ;;
   m <- index coords 12 ;;
   r <- index coords 16 ;;
   p <- index coords 20 ;;
   t <- index coords 4 ;;
   w <- index coords 0 ;;
   Ok {| index_tip := i; middle_tip := m; ring_tip := r;
         pinkie_tip := p; thumb_tip := t; palm := w |})%result.

Definition is_shaking (palm_coords past_palm_coords : coord)
    (shake_sensitivity : float) : bool :=
  (abs (x palm_coords - x past_palm_coords) <? shake_sensitivity)
  && (abs (y palm_coords - y past_palm_coords) <? shake_sensitivity)
  && (abs (z palm_coords - z past_palm_coords) <? shake_sensitivity).

(** Python's [a and b]: [b] is evaluated only when [a] is true. *)
Definition and_then (a b : result bool) : result bool :=
  match a with
  | Ok true => b
  | Ok false => Ok false
  | Raise e => Raise e
  end.

(** [not coords[tip].get("y") <= coords[joint].get("y")] *)
Definition curled (coords : list coord) (tip joint : nat) : result bool :=
  (t <- index coords tip ;;
   j <- index coords joint ;;
   Ok (negb (y t <=? y j)))%result.

Definition is_fist (coords : list coord) : result bool :=
  and_then (curled coords 8 6)
    (and_then (curled coords 12 10)
       (and_then (curled coords 16 14)
          (curled coords 20 18))).

(** ** The keyboard and mouse modules *)

Inductive call : Set :=
| keyboard_press (hotkey : string)
| keyboard_send (hotkey : string)
| keyboard_release (hotkey : string)
| mouse_click
| mouse_right_click
| mouse_wheel (delta : Z)
| mouse_move (to_x to_y : float).

(** What a method runs in: the cursor position the operating system
    reports, as the floats Python's [+] makes of it, and the calls made so
    far, oldest first. *)
Record OS : Set := { position : float * float; calls : list call }.

Definition M (A : Type) : Type := OS -> result A * OS.

Definition ret {A : Type} (a : A) : M A := fun os => (Ok a, os).

Definition bind {A B : Type} (m : M A) (k : A -> M B) : M B :=
  fun os =>
    match m os with
    | (Ok a, os') => k a os'
    | (Raise e, os') => (Raise e, os')
    end.

Definition lift {A : Type} (r : result A) : M A := fun os => (r, os).

Definition emit (c : call) : M unit :=
  fun os => (Ok tt, {| position := position os; calls := calls os ++ [c] |}).

Definition get_position : M (float * float) := fun os => (Ok (position os), os).

Declare Scope os_scope.
Delimit Scope os_scope with os.
Notation "x <- m ;; k" := (bind m (fun x => k))
  (at level 61, m at next level, right associativity) : os_scope.
Notation "m ;;; k" := (bind m (fun _ => k))
  (at level 61, right associativity) : os_scope.

(** ** The translator *)

Record Translator : Set := {
  distance_threshold : float;
  shake_sensitivity : float;
  mouse_sensitivity : float;
  scroll_sensitivity : float
}.

(** The four fingertip to thumb distances of a hand. *)
Record distances : Set := {
  index_thumb : float;
  middle_thumb : float;
  ring_thumb : float;
  pinkie_thumb : float
}.

Definition thumb_distances (h : hand) : result distances :=
  (i <- get_3d_distance (index_tip h) (thumb_tip h) ;;
   m <- get_3d_distance (middle_tip h) (thumb_tip h) ;;
   r <- get_3d_distance (ring_tip h) (thumb_tip h) ;;
   p <- get_3d_distance (pinkie_tip h) (thumb_tip h) ;;
   Ok {| index_thumb := i; middle_thumb := m;
         ring_thumb := r; pinkie_thumb := p |})%result.

(** [not now <= threshold and before <= threshold] *)
Definition released (self : Translator) (now before : float) : bool :=
  negb (now <=? distance_threshold self) && (before <=? distance_threshold self).

(** Lines 225 to 255 of [translate_landmarks_to_keyboard_action]: the four
    finger tests and the [elif] of the last one. *)
Definition release_keys (self : Translator) (coords past_coords : list coord)
    (d past_d : distances) : M unit :=
  (if released self (index_thumb d) (index_thumb past_d) then
     emit (keyboard_send "space")
   else if released self (middle_thumb d) (middle_thumb past_d) then
     emit (keyboard_send "enter")
   else if released self (ring_thumb d) (ring_thumb past_d) then
     emit (keyboard_send "backspace")
   else if released self (pinkie_thumb d) (pinkie_thumb past_d) then
     emit (keyboard_send "escape")
   else
     b <- lift (and_then (f <- is_fist coords ;; Ok (negb f))%result
                         (is_fist past_coords)) ;;
     if b : bool then emit (keyboard_release "alt+tab") else ret tt)%os.

(** Lines 211 to 223: the directional keys sent while the hand is a fist;
    [rest] is where the method goes on when none of the four tests
    holds. *)
Definition navigate (palm_coords past_palm_coords : coord) (rest : M unit) : M unit :=
  if x palm_coords <=? x past_palm_coords then emit (keyboard_send "shift+tab")
  else if PyFloat.gt (x palm_coords) (x past_palm_coords) then emit (keyboard_send "tab")
  else if y palm_coords <=? y past_palm_coords then emit (keyboard_send "down arrow")
  else if PyFloat.gt (y palm_coords) (y past_palm_coords) then emit (keyboard_send "up arrow")
  else rest.

Definition translate_landmarks_to_keyboard_action (self : Translator)
    (mp_landmarks mp_past_landmarks : list coord) : M unit :=
  (if Nat.eqb (List.length mp_past_landmarks) 0 then ret tt
   else
     let coords := mp_landmarks in
     let past_coords := mp_past_landmarks in
     hand_coords <- lift (get_hand_coords coords) ;;
     past_hand_coords <- lift (get_hand_coords past_coords) ;;
     d <- lift (thumb_distances hand_coords) ;;
     past_d <- lift (thumb_distances past_hand_coords) ;;
     let rest := release_keys self coords past_coords d past_d in
     fist <- lift (is_fist coords) ;;
     if fist : bool then
       past_fist <- lift (is_fist past_coords) ;;
       (if negb past_fist then emit (keyboard_press "alt+tab") else ret tt) ;;;
       if negb (is_shaking (palm hand_coords) (palm past_hand_coords)
                  (shake_sensitivity self + 0.008))
       then navigate (palm hand_coords) (palm past_hand_coords) rest
       else rest
     else rest)%os.

Definition translate_landmarks_to_mouse_action (self : Translator)
    (mp_landmarks mp_past_landmarks : list coord) : M unit :=
  (if Nat.eqb (List.length mp_past_landmarks) 0 then ret tt
   else
     cursor <- get_position ;;
     let coords := mp_landmarks in
     let past_coords := mp_past_landmarks in
     hand_coords <- lift (get_hand_coords coords) ;;
     past_palm_coords <- lift (index past_coords 0) ;;
     index_thumb_distance <-
       lift (get_3d_distance (index_tip hand_coords) (thumb_tip hand_coords)) ;;
     middle_thumb_distance <-
       lift (get_3d_distance (middle_tip hand_coords) (thumb_tip hand_coords)) ;;
     ring_thumb_distance <-
       lift (get_3d_distance (ring_tip hand_coords) (thumb_tip hand_coords)) ;;
     if is_shaking (palm hand_coords) past_palm_coords (shake_sensitivity self)
     then ret tt
     else
       fist <- lift (is_fist coords) ;;
       if fist : bool then ret tt
       else if index_thumb_distance <=? distance_threshold self then
         emit mouse_click
       else if ring_thumb_distance <=? distance_threshold self then
         emit mouse_right_click
       else if middle_thumb_distance <=? distance_threshold self then
         clicks_to_scroll <-
           lift (PyFloat.int (scroll_sensitivity self
                              * (y (palm hand_coords) - y past_palm_coords))) ;;
         emit (mouse_wheel (- clicks_to_scroll))
       else
         let new_x_position :=
           fst cursor
           + mouse_sensitivity self * (x (palm hand_coords) - x past_palm_coords) in
         let new_y_position :=
           snd cursor
           + mouse_sensitivity self * (y (palm hand_coords) - y past_palm_coords) in
         emit (mouse_move new_x_position new_y_position))%os.

(** * Vocabulary of the statements *)

(** The state after the calls [new] have been made. *)
Definition log (os : OS) (new : list call) : OS :=
  {| position := position os; calls := calls os ++ new |}.

(** Landmark [i] of a skeleton that has one. *)
Definition origin : coord := {| x := 0; y := 0; z := 0 |}.

Definition pt (coords : list coord) (i : nat) : coord := nth i coords origin.

(** What [get_hand_coords] returns on a skeleton of 21 points. *)
Definition named_points (coords : list coord) : hand :=
  {| index_tip := pt coords 8; middle_tip := pt coords 12;
     ring_tip := pt coords 16; pinkie_tip := pt coords 20;
     thumb_tip := pt coords 4; palm := pt coords 0 |}.

(** The landmarks the methods and their helpers read. *)
Definition used_landmarks : list nat := [0; 4; 6; 8; 10; 12; 14; 16; 18; 20]%nat.

(** Coordinates that are numbers, and finite ones. *)
Definition finite_coord (c : coord) : bool :=
  is_finite (x c) && is_finite (y c) && is_finite (z c).

Definition finite_skeleton (coords : list coord) : bool :=
  forallb finite_coord coords.

Definition y_is_number (c : coord) : bool := negb (is_nan (y c)).

(** A point of the data model: x and y in [0, 1], z finite. *)
Definition in_unit_interval (v : float) : bool := (0 <=? v) && (v <=? 1).

Definition valid_point (c : coord) : bool :=
  in_unit_interval (x c) && in_unit_interval (y c) && is_finite (z c).

(** Values of the IEEE specification: zero or finite; and not NaN and not
    below zero. *)
Inductive number : spec_float -> Prop :=
| number_zero s : number (S754_zero s)
| number_finite s m e : number (S754_finite s m e).

Definition nonneg (f : spec_float) : Prop :=
  match f with
  | S754_zero _ => True
  | S754_infinity s | S754_finite s _ _ => s = false
  | S754_nan => False
  end.

(** The calls of one kind among the calls made. *)
Definition is_send (c : call) : bool :=
  match c with keyboard_send _ => true | _ => false end.

Definition is_press (hotkey : string) (c : call) : bool :=
  match c with keyboard_press k => String.eqb k hotkey | _ => false end.

Definition is_release (hotkey : string) (c : call) : bool :=
  match c with keyboard_release k => String.eqb k hotkey | _ => false end.

Definition finger_keys : list string := ["space"; "enter"; "backspace"; "escape"]%string.

Definition is_finger_key (c : call) : bool :=
  match c with
  | keyboard_send k => existsb (String.eqb k) finger_keys
  | _ => false
  end.

(** ** The methods on skeletons of 21 points, as lists of calls *)

(** The value of [is_fist] on a skeleton of 21 points. *)
Definition fist (coords : list coord) : bool :=
  negb (y (pt coords 8) <=? y (pt coords 6))
  && negb (y (pt coords 12) <=? y (pt coords 10))
  && negb (y (pt coords 16) <=? y (pt coords 14))
  && negb (y (pt coords 20) <=? y (pt coords 18)).

(** The calls of [release_keys]. *)
Definition release_calls (self : Translator) (d past_d : distances)
    (fist_now fist_before : bool) : list call :=
  if released self (index_thumb d) (index_thumb past_d) then
    [keyboard_send "space"]
  else if released self (middle_thumb d) (middle_thumb past_d) then
    [keyboard_send "enter"]
  else if released self (ring_thumb d) (ring_thumb past_d) then
    [keyboard_send "backspace"]
  else if released self (pinkie_thumb d) (pinkie_thumb past_d) then
    [keyboard_send "escape"]
  else if negb fist_now && fist_before then [keyboard_release "alt+tab"]
  else [].

(** The calls of [navigate]. *)
Definition navigate_calls (palm_coords past_palm_coords : coord)
    (rest : list call) : list call :=
  if x palm_coords <=? x past_palm_coords then [keyboard_send "shift+tab"]
  else if PyFloat.gt (x palm_coords) (x past_palm_coords) then [keyboard_send "tab"]
  else if y palm_coords <=? y past_palm_coords then [keyboard_send "down arrow"]
  else if PyFloat.gt (y palm_coords) (y past_palm_coords) then [keyboard_send "up arrow"]
  else rest.

(** The calls of [translate_landmarks_to_keyboard_action] once the eight
    distances are there. *)
Definition keyboard_calls (self : Translator) (coords past_coords : list coord)
    (d past_d : distances) : list call :=
  let rest := release_calls self d past_d (fist coords) (fist past_coords) in
  if fist coords then
    (if negb (fist past_coords) then [keyboard_press "alt+tab"] else [])
    ++ (if negb (is_shaking (pt coords 0) (pt past_coords 0)
                   (shake_sensitivity self + 0.008))
        then navigate_calls (pt coords 0) (pt past_coords 0) rest
        else rest)
  else rest.

(** The calls of [translate_landmarks_to_mouse_action] once the three
    distances are there; the scroll amount may still raise. *)
Definition mouse_calls (self : Translator) (cursor : float * float)
    (coords : list coord) (past_palm : coord)
    (index_d middle_d ring_d : float) : result (list call) :=
  if is_shaking (pt coords 0) past_palm (shake_sensitivity self) then Ok []
  else if fist coords then Ok []
  else if index_d <=? distance_threshold self then Ok [mouse_click]
  else if ring_d <=? distance_threshold self then Ok [mouse_right_click]
  else if middle_d <=? distance_threshold self then
    (n <- PyFloat.int (scroll_sensitivity self
                       * (y (pt coords 0) - y past_palm)) ;;
     Ok [mouse_wheel (- n)])%result
  else
    Ok [mouse_move
          (fst cursor + mouse_sensitivity self * (x (pt coords 0) - x past_palm))
          (snd cursor + mouse_sensitivity self * (y (pt coords 0) - y past_palm))].

(** The whole of each method on 21 points: its calls, or the exception
    of a distance or of the scroll amount. *)
Definition keyboard_outcome (self : Translator) (coords past_coords : list coord)
    : result (list call) :=
  (d <- thumb_distances (named_points coords) ;;
   past_d <- thumb_distances (named_points past_coords) ;;
   Ok (keyboard_calls self coords past_coords d past_d))%result.

Definition mouse_outcome (self : Translator) (cursor : float * float)
    (coords : list coord) (past_palm : coord) : result (list call) :=
  (index_d <- get_3d_distance (pt coords 8) (pt coords 4) ;;
   middle_d <- get_3d_distance (pt coords 12) (pt coords 4) ;;
   ring_d <- get_3d_distance (pt coords 16) (pt coords 4) ;;
   mouse_calls self cursor coords past_palm index_d middle_d ring_d)%result.

Definition finish (outcome : result (list call)) (os : OS) : result unit * OS :=
  match outcome with
  | Ok new => (Ok tt, log os new)
  | Raise e => (Raise e, os)
  end.

(** ** The rules as the specification words them *)

(** A fingertip is below its mid-joint: strictly greater y. *)
Definition tip_below_joint (coords : list coord) (tip joint : nat) : bool :=
  PyFloat.gt (y (pt coords tip)) (y (pt coords joint)).

Definition all_four_curled (coords : list coord) : bool :=
  tip_below_joint coords 8 6 && tip_below_joint coords 12 10
  && tip_below_joint coords 16 14 && tip_below_joint coords 20 18.

(** Falling edge of a finger: apart now, touching before. *)
Definition falling_edge (threshold now before : float) : bool :=
  PyFloat.gt now threshold && (before <=? threshold).

(** The key of the first finger, in the order index, middle, ring, pinkie,
    that has a falling edge. *)
Definition first_released_key (threshold : float) (d past_d : distances) : option string :=
  option_map snd
    (find (fun fk : (distances -> float) * string =>
             falling_edge threshold (fst fk d) (fst fk past_d))
          [(index_thumb, "space"); (middle_thumb, "enter");
           (ring_thumb, "backspace"); (pinkie_thumb, "escape")]%string).

(** The directional key of the fist navigation, by its priority list. *)
Definition direction_key (palm_coords past_palm_coords : coord) : string :=
  if x palm_coords <=? x past_palm_coords then "shift+tab"
  else if PyFloat.gt (x palm_coords) (x past_palm_coords) then "tab"
  else if y palm_coords <=? y past_palm_coords then "down"
  else "up".

(** The outcome of the mouse channel, by its ordered rules. *)
Inductive gesture : Set :=
| no_action
| left_click
| right_click
| scroll
| move_cursor (to_x to_y : float).

Definition mouse_rule (self : Translator) (cursor : float * float)
    (palm_coords past_palm : coord) (fist_now : bool)
    (index_d ring_d middle_d : float) : gesture :=
  if is_shaking palm_coords past_palm (shake_sensitivity self) then no_action
  else if fist_now then no_action
  else if index_d <=? distance_threshold self then left_click
  else if ring_d <=? distance_threshold self then right_click
  else if middle_d <=? distance_threshold self then scroll
  else move_cursor
         (fst cursor + mouse_sensitivity self * (x palm_coords - x past_palm))
         (snd cursor + mouse_sensitivity self * (y palm_coords - y past_palm)).

(** The outcome that a list of calls is, when it is one. *)
Definition gesture_of (new : list call) : option gesture :=
  match new with
  | [] => Some no_action
  | [mouse_click] => Some left_click
  | [mouse_right_click] => Some right_click
  | [mouse_wheel _] => Some scroll
  | [mouse_move to_x to_y] => Some (move_cursor to_x to_y)
  | _ => None
  end.

(** ** Sample data *)

(** The translator the GUI builds: [Translator(0.06, 0.002, 3000, 200)]. *)
Definition gui_translator : Translator :=
  {| distance_threshold := 0.06; shake_sensitivity := 0.002;
     mouse_sensitivity := 3000; scroll_sensitivity := 200 |}.

Definition at_ (a b c : float) : coord := {| x := a; y := b; z := c |}.

(** A skeleton of 21 points with the mid-joints at height 0.5. *)
Definition skeleton (palm_c thumb_c index_c middle_c ring_c pinkie_c : coord) : list coord :=
  let j := at_ 0.5 0.5 0 in
  [palm_c; origin; origin; origin; thumb_c; origin; j; origin; index_c; origin;
   j; origin; middle_c; origin; j; origin; ring_c; origin; j; origin; pinkie_c].

Definition desktop : OS := {| position := (640, 360); calls := [] |}.

(** Poses of a hand.  The thumb tip is at (0.5, 0.75, 0); a fingertip at
    [far] is 0.25 away from it, and below the mid-joints. *)
Definition far : coord := at_ 0.75 0.75 0.
Definition thumb_c : coord := at_ 0.5 0.75 0.

(** A fist whose index tip touches the thumb, and the same fist with the
    index tip 0.25 behind the thumb. *)
Definition fist_pinch : list coord :=
  skeleton (at_ 0.5 0.9 0) thumb_c (at_ 0.5 0.75 0) far far far.

Definition fist_apart : list coord :=
  skeleton (at_ 0.5 0.9 0) thumb_c (at_ 0.5 0.75 0.25) far far far.

(** [fist_apart] with the palm moved to the left by 0.2. *)
Definition fist_apart_left : list coord :=
  skeleton (at_ 0.3 0.9 0) thumb_c (at_ 0.5 0.75 0.25) far far far.

(** A fist with no finger at the thumb, the palm at abscissa [px]. *)
Definition fist_at (px : float) : list coord :=
  skeleton (at_ px 0.9 0) thumb_c far far far far.

(** Three fingers curled and the pinkie stretched above its mid-joint. *)
Definition pinkie_out : list coord :=
  skeleton (at_ 0.5 0.9 0) thumb_c far far far (at_ 0.75 0.25 0).

(** An open hand: the four fingertips above their mid-joints, away from
    the thumb; and its first nine landmarks only. *)
Definition up : coord := at_ 0.75 0.25 0.

Definition open_hand : list coord :=
  skeleton (at_ 0.5 0.9 0) thumb_c up up up up.

Definition nine_points : list coord := firstn 9 open_hand.

(** An open hand with the thumb up, the index tip 0.05 behind the thumb
    tip, and the same hand with the index tip 0.1 behind it. *)
Definition thumb_up : coord := at_ 0.5 0.25 0.

Definition pinch : list coord :=
  skeleton (at_ 0.5 0.9 0) thumb_up (at_ 0.5 0.25 0.05) up up up.

Definition pinch_released : list coord :=
  skeleton (at_ 0.5 0.9 0) thumb_up (at_ 0.5 0.25 0.1) up up up.

(** The four distances of a skeleton of 21 points, when they are there. *)
Definition distances_of (coords : list coord) : distances :=
  match thumb_distances (named_points coords) with
  | Ok d => d
  | Raise _ =>
      {| index_thumb := nan; middle_thumb := nan;
         ring_thumb := nan; pinkie_thumb := nan |}
  end.

(** [pinch] with the palm moved to the right by 0.25. *)
Definition pinch_right : list coord :=
  skeleton (at_ 0.75 0.9 0) thumb_up (at_ 0.5 0.25 0.05) up up up.

(** An open hand whose middle tip is on the thumb tip, the palm at height
    [py]. *)
Definition scroll_pose (py : float) : list coord :=
  skeleton (at_ 0.5 py 0) thumb_up up thumb_up up up.

(** * The frame source of [hand_tracker.py] and the loop of [gui.py] *)

(** ** Landmark lists and the dicts that hold them *)

(** A [NormalizedLandmarkList]: the one the module builds empty and
    compares by identity, or one that mediapipe returned. *)
Inductive landmark_list : Set :=
| empty_landmark_list
| detected (points : list coord).

(** [l.landmark] *)
Definition landmark (l : landmark_list) : list coord :=
  match l with
  | empty_landmark_list => []
  | detected points => points
  end.

(** [l is not empty_landmark_list] *)
Definition is_not_empty_landmark_list (l : landmark_list) : bool :=
  match l with
  | empty_landmark_list => false
  | detected _ => true
  end.

(** The keys "Right" and "Left", and a dict with these two keys. *)
Inductive side : Set := Right | Left.

Record hands_dict : Set := { right_hand : landmark_list; left_hand : landmark_list }.

Definition getitem (d : hands_dict) (key : side) : landmark_list :=
  match key with
  | Right => right_hand d
  | Left => left_hand d
  end.

Definition setitem (d : hands_dict) (key : side) (l : landmark_list) : hands_dict :=
  match key with
  | Right => {| right_hand := l; left_hand := left_hand d |}
  | Left => {| right_hand := right_hand d; left_hand := l |}
  end.

(** The dicts are objects: a name holds the address of one, two names may
    hold the same address, and an item assignment changes the dict for
    every name that holds it. *)
Definition no_hands : hands_dict :=
  {| right_hand := empty_landmark_list; left_hand := empty_landmark_list |}.

Definition read (heap : list hands_dict) (address : nat) : hands_dict :=
  nth address heap no_hands.

Fixpoint write (heap : list hands_dict) (address : nat) (d : hands_dict)
    : list hands_dict :=
  match heap, address with
  | [], _ => []
  | _ :: rest, O => d :: rest
  | first :: rest, S a => first :: write rest a d
  end.

(** ** [hand_tracker.py] *)

(** The module-level dict [empty_landmarks] is the first object. *)
Definition empty_landmarks : nat := 0.

Record HandTracker : Set := {
  heap : list hands_dict;
  current_hand_landmarks : nat;
  past_hand_landmarks : nat
}.

(** [HandTracker.__init__]: both attributes are bound to [empty_landmarks]
    itself; [ValueError] when the video source does not open. *)
Definition HandTracker_init (opened : bool) : result HandTracker :=
  if negb opened then Raise ValueError
  else Ok {| heap := [no_hands];
             current_hand_landmarks := empty_landmarks;
             past_hand_landmarks := empty_landmarks |}.

(** [copy(d)]: a new dict with the items of [d]. *)
Definition copy (self : HandTracker) (address : nat) : nat * HandTracker :=
  (List.length (heap self),
   {| heap := heap self ++ [read (heap self) address];
      current_hand_landmarks := current_hand_landmarks self;
      past_hand_landmarks := past_hand_landmarks self |}).

Definition set_past_hand_landmarks (self : HandTracker) (address : nat) : HandTracker :=
  {| heap := heap self;
     current_hand_landmarks := current_hand_landmarks self;
     past_hand_landmarks := address |}.

Definition is_right_hand (mp_landmarks : list coord) : result bool :=
  (thumb_base <- index mp_landmarks 2 ;;
   pinkie_base <- index mp_landmarks 17 ;;
   Ok (x thumb_base <? x pinkie_base))%result.

(** What one tick gets from the camera and from mediapipe:
    [video_capture.isOpened()], the flag of [video_capture.read()], and
    [results.multi_hand_landmarks], the empty list standing for [None]. *)
Record camera : Set := {
  isOpened : bool;
  success : bool;
  multi_hand_landmarks : list (list coord)
}.

(** The [for] loop of [get_image_data]: each hand is stored in the dict
    that [current_hand_landmarks] names, under the key of its side. *)
Fixpoint store_hands (self : HandTracker) (landmarkList : list (list coord))
    : result unit * HandTracker :=
  match landmarkList with
  | [] => (Ok tt, self)
  | landmarks :: rest =>
      match is_right_hand landmarks with
      | Ok is_right =>
          let a := current_hand_landmarks self in
          let key := if is_right : bool then Right else Left in
          store_hands
            {| heap := write (heap self) a
                         (setitem (read (heap self) a) key (detected landmarks));
               current_hand_landmarks := a;
               past_hand_landmarks := past_hand_landmarks self |}
            rest
      | Raise e => (Raise e, self)
      end
  end.

(** What [get_image_data] returns: the tuple of four with the addresses of
    the two dicts (the image is left out), or the pair [(False, None)]. *)
Inductive image_data : Set :=
| frame_data (success : bool) (hand_landmarks past_hand_landmarks : nat)
| no_frame.

Definition get_image_data (self : HandTracker) (cam : camera)
    : result image_data * HandTracker :=
  if isOpened cam then
    if success cam then
      let (past, self1) := copy self (past_hand_landmarks self) in
      match multi_hand_landmarks cam with
      | _ :: _ =>
          match store_hands self1 (multi_hand_landmarks cam) with
          | (Ok _, self2) =>
              let (fresh, self3) := copy self2 (current_hand_landmarks self2) in
              let self4 := set_past_hand_landmarks self3 fresh in
              (Ok (frame_data true (current_hand_landmarks self4) past), self4)
          | (Raise e, self2) => (Raise e, self2)
          end
      | [] =>
          let self2 := set_past_hand_landmarks self1 empty_landmarks in
          (Ok (frame_data true (current_hand_landmarks self2) past), self2)
      end
    else (Ok no_frame, self)
  else (Ok no_frame, self).

(** The frames a tracker goes through, up to the first exception. *)
Fixpoint track (self : HandTracker) (cams : list camera) : result HandTracker :=
  match cams with
  | [] => Ok self
  | cam :: rest =>
      match get_image_data self cam with
      | (Ok _, self') => track self' rest
      | (Raise e, _) => Raise e
      end
  end.

(** ** [gui.py] *)

(** The [GUI] object: its tracker and translator, the operating system the
    translator acts on, and the number of calls of [window.after]. *)
Record GUI : Set := {
  hand_tracker : HandTracker;
  translator : Translator;
  screen : OS;
  scheduled : nat
}.

(** One of the two guarded calls of [update]. *)
Definition translate_hand (method : list coord -> list coord -> M unit)
    (hand_landmarks past_hand_landmarks : hands_dict) (key : side) : M unit :=
  if is_not_empty_landmark_list (getitem hand_landmarks key)
     && is_not_empty_landmark_list (getitem past_hand_landmarks key)
  then method (landmark (getitem hand_landmarks key))
              (landmark (getitem past_hand_landmarks key))
  else ret tt.

(** [GUI.update]; the image and the canvas are left out.  Unpacking the
    pair [(False, None)] into four names raises [ValueError]; an exception
    leaves the method before [window.after]. *)
Definition update (self : GUI) (cam : camera) : result unit * GUI :=
  match get_image_data (hand_tracker self) cam with
  | (Raise e, tracker) =>
      (Raise e, {| hand_tracker := tracker; translator := translator self;
                   screen := screen self; scheduled := scheduled self |})
  | (Ok no_frame, tracker) =>
      (Raise ValueError,
       {| hand_tracker := tracker; translator := translator self;
          screen := screen self; scheduled := scheduled self |})
  | (Ok (frame_data ok current past), tracker) =>
      let hand_landmarks := read (heap tracker) current in
      let past_hand_landmarks := read (heap tracker) past in
      let translations :=
        (if ok then
           translate_hand (translate_landmarks_to_mouse_action (translator self))
             hand_landmarks past_hand_landmarks Left ;;;
           translate_hand (translate_landmarks_to_keyboard_action (translator self))
             hand_landmarks past_hand_landmarks Right
         else ret tt)%os in
      match translations (screen self) with
      | (Ok _, os) =>
          (Ok tt, {| hand_tracker := tracker; translator := translator self;
                     screen := os; scheduled := S (scheduled self) |})
      | (Raise e, os) =>
          (Raise e, {| hand_tracker := tracker; translator := translator self;
                       screen := os; scheduled := scheduled self |})
      end
  end.

(** [GUI.__init__] up to its first [update]: the tracker, and
    [Translator(0.06, 0.002, 3000, 200)]. *)
Definition GUI_init (opened : bool) (os : OS) : result GUI :=
  (tracker <- HandTracker_init opened ;;
   Ok {| hand_tracker := tracker; translator := gui_translator;
         screen := os; scheduled := 0 |})%result.

(** The ticks of the loop: [update] runs again only when the tick before
    has called [window.after]. *)
Fixpoint mainloop (self : GUI) (cams : list camera) : GUI :=
  match cams with
  | [] => self
  | cam :: rest =>
      match update self cam with
      | (Ok _, self') => mainloop self' rest
      | (Raise _, self') => self'
      end
  end.

(** ** Vocabulary for the frame source *)

(** The tracker as [__init__] leaves it. *)
Definition new_tracker : HandTracker :=
  {| heap := [no_hands];
     current_hand_landmarks := empty_landmarks;
     past_hand_landmarks := empty_landmarks |}.

(** What holds of a tracker between two calls of [get_image_data]: the
    current dict is [empty_landmarks] itself, and the past dict exists and
    has the items of the current one. *)
Definition tracker_inv (self : HandTracker) : Prop :=
  current_hand_landmarks self = empty_landmarks
  /\ (0 < List.length (heap self))%nat
  /\ (past_hand_landmarks self < List.length (heap self))%nat
  /\ read (heap self) (past_hand_landmarks self)
     = read (heap self) (current_hand_landmarks self).

(** Every hand held in a dict satisfies [P]. *)
Definition hands_satisfy (P : list coord -> Prop) (d : hands_dict) : Prop :=
  forall key points, getitem d key = detected points -> P points.

(** The items of the current dict after the hands of a frame are stored,
    when none of them raises. *)
Fixpoint stored (d : hands_dict) (landmarkList : list (list coord)) : hands_dict :=
  match landmarkList with
  | [] => d
  | landmarks :: rest =>
      let key := if x (pt landmarks 2) <? x (pt landmarks 17) then Right else Left in
      stored (setitem d key (detected landmarks)) rest
  end.

(** A frame with a capture, and the hands mediapipe found in it. *)
Definition frame (hands : list (list coord)) : camera :=
  {| isOpened := true; success := true; multi_hand_landmarks := hands |}.

(** A hand the translator can work on: 21 finite points. *)
Definition regular_hand (points : list coord) : Prop :=
  List.length points = 21%nat /\ finite_skeleton points = true.

(** The calls of one channel. *)
Definition is_keyboard_call (c : call) : bool :=
  match c with
  | keyboard_press _ | keyboard_send _ | keyboard_release _ => true
  | _ => false
  end.

Definition is_mouse_call (c : call) : bool := negb (is_keyboard_call c).

(** A method that only adds calls of one kind, [n] at most, and leaves the
    cursor position and the calls made before as they are. *)
Definition adds_only (kind : call -> bool) (n : nat) (m : M unit) : Prop :=
  forall os, exists r new,
    m os = (r, log os new)
    /\ forallb kind new = true /\ (List.length new <= n)%nat.

(** ** Sample hands of each side *)

Fixpoint set_landmark (i : nat) (c : coord) (coords : list coord) : list coord :=
  match coords, i with
  | [], _ => []
  | _ :: rest, O => c :: rest
  | first :: rest, S j => first :: set_landmark j c rest
  end.

(** A skeleton with the thumb base at abscissa 0.2 and the pinkie base at
    0.6, and the other way round. *)
Definition right_hand_of (coords : list coord) : list coord :=
  set_landmark 17 (at_ 0.6 0.5 0) (set_landmark 2 (at_ 0.2 0.5 0) coords).

Definition left_hand_of (coords : list coord) : list coord :=
  set_landmark 17 (at_ 0.2 0.5 0) (set_landmark 2 (at_ 0.6 0.5 0) coords).

(** The tracker after the frames [cams], when none of them raises. *)
Definition tracker_after (cams : list camera) : HandTracker :=
  match track new_tracker cams with
  | Ok self => self
  | Raise _ => new_tracker
  end.

(** A tick without a capture. *)
Definition no_capture : camera :=
  {| isOpened := true; success := false; multi_hand_landmarks := [] |}.

(** The GUI of [Translator(0.06, 0.002, 3000, 200)] after the frames
    [cams]. *)
Definition gui_after (cams : list camera) : GUI :=
  {| hand_tracker := tracker_after cams; translator := gui_translator;
     screen := desktop; scheduled := List.length cams |}.

(** A right fist and a left pinching hand. *)
Definition right_fist : list coord := right_hand_of fist_pinch.
Definition left_pinch : list coord := left_hand_of pinch.

(** * Facts on binary64 values *)

Module FloatFacts.

Lemma SFcompare_antisym (a b : spec_float) :
  SFcompare b a = option_map CompOpp (SFcompare a b).
Proof.
  destruct a as [sa|sa| |sa ma ea], b as [sb|sb| |sb mb eb]; simpl;
    try reflexivity;
    try (destruct sa; reflexivity);
    try (destruct sb; reflexivity);
    try (destruct sa, sb; reflexivity).
  rewrite (Z.compare_antisym ea eb).
  change (Pos.compare_cont Eq mb ma) with (Pos.compare_cont (CompOpp Eq) mb ma).
  rewrite <- (Pos.compare_cont_antisym ma mb Eq).
  destruct sa, sb, (ea ?= eb)%Z; simpl; try reflexivity;
    destruct (Pos.compare_cont Eq ma mb); reflexivity.
Qed.

Lemma SFcompare_refl (a : spec_float) :
  a <> S754_nan -> SFcompare a a = Some Eq.
Proof.
  destruct a as [s|s| |s m e]; simpl; intros H; try reflexivity.
  - destruct s; reflexivity.
  - congruence.
  - rewrite Z.compare_refl, Pos.compare_cont_refl. destruct s; reflexivity.
Qed.

Lemma is_nan_spec (v : float) :
  is_nan v = true <-> Prim2SF v = S754_nan.
Proof.
  unfold is_nan. rewrite FloatAxioms.eqb_spec. unfold SFeqb. split.
  - intros H. destruct (Prim2SF v) eqn:E; try reflexivity;
      rewrite SFcompare_refl in H by congruence; discriminate.
  - intros ->. reflexivity.
Qed.

Lemma not_nan_spec (v : float) :
  is_nan v = false <-> Prim2SF v <> S754_nan.
Proof.
  rewrite <- is_nan_spec. destruct (is_nan v); split; congruence.
Qed.

Lemma SFcompare_some (a b : spec_float) :
  a <> S754_nan -> b <> S754_nan -> exists c, SFcompare a b = Some c.
Proof.
  destruct a, b; simpl; intros; try congruence; eauto.
Qed.

(** On numbers, [not a <= b] is [a > b]. *)
Lemma not_leb_gt (a b : float) :
  is_nan a = false -> is_nan b = false ->
  negb (a <=? b) = PyFloat.gt a b.
Proof.
  rewrite !not_nan_spec. intros Ha Hb.
  unfold PyFloat.gt. rewrite FloatAxioms.leb_spec, FloatAxioms.ltb_spec. unfold SFleb, SFltb.
  rewrite (SFcompare_antisym (Prim2SF a) (Prim2SF b)).
  destruct (SFcompare_some _ _ Ha Hb) as [c ->].
  destruct c; reflexivity.
Qed.

(** *** Infinities and finite values *)

Lemma is_infinity_spec (v : float) :
  is_infinity v = true <-> exists s, Prim2SF v = S754_infinity s.
Proof.
  unfold is_infinity. rewrite FloatAxioms.eqb_spec, abs_spec.
  change (Prim2SF infinity) with (S754_infinity false).
  destruct (Prim2SF v) as [s|s| |s m e]; simpl; split;
    try discriminate; try (intros [s' H]; discriminate); eauto.
Qed.

Lemma is_finite_spec (v : float) :
  is_finite v = true <-> number (Prim2SF v).
Proof.
  unfold is_finite. rewrite negb_true_iff, orb_false_iff. split.
  - intros [Hn Hi]. apply not_nan_spec in Hn.
    destruct (Prim2SF v) as [s|s| |s m e] eqn:E; try constructor.
    + assert (is_infinity v = true) by (apply is_infinity_spec; eauto).
      congruence.
    + congruence.
  - intros H. split.
    + apply not_nan_spec. intros E. rewrite E in H. inversion H.
    + destruct (is_infinity v) eqn:Hi; [|reflexivity].
      apply is_infinity_spec in Hi. destruct Hi as [s E].
      rewrite E in H. inversion H.
Qed.

(** The values from 0 to 1 are finite. *)
Lemma unit_interval_is_finite (v : float) :
  in_unit_interval v = true -> is_finite v = true.
Proof.
  unfold in_unit_interval. rewrite andb_true_iff, !FloatAxioms.leb_spec.
  change (Prim2SF 0) with (S754_zero false).
  change (Prim2SF 1) with (S754_finite false 4503599627370496 (-52)).
  intros [H0 H1]. apply is_finite_spec.
  destruct (Prim2SF v) as [s|s| |s m e]; try constructor.
  - destruct s; discriminate.
  - discriminate.
Qed.

(** *** Subtraction *)

Lemma sub_diag (v : float) : is_finite v = true -> v - v = 0.
Proof.
  intros H. apply is_finite_spec in H. apply Prim2SF_inj.
  rewrite sub_spec. change (Prim2SF 0) with (S754_zero false).
  inversion H as [s E|s m e E]; unfold SF64sub, SFsub.
  - destruct s; reflexivity.
  - rewrite Z.sub_diag. reflexivity.
Qed.

Lemma binary_round_aux_opp (s : bool) (m e : Z) (l : location) :
  binary_round_aux prec emax (negb s) m e l
  = SFopp (binary_round_aux prec emax s m e l).
Proof.
  unfold binary_round_aux.
  destruct (shr_fexp prec emax m e l) as [mrs' e'].
  destruct (shr_fexp prec emax _ e' loc_Exact) as [mrs'' e''].
  destruct (shr_m mrs''); try reflexivity.
  destruct (e'' <=? emax - prec)%Z; reflexivity.
Qed.

Lemma binary_round_opp (s : bool) (m : positive) (e : Z) :
  binary_round prec emax (negb s) m e = SFopp (binary_round prec emax s m e).
Proof.
  unfold binary_round.
  destruct (shl_align m e _) as [mz ez]. apply binary_round_aux_opp.
Qed.

Lemma binary_normalize_opp (m e : Z) :
  binary_normalize prec emax m e false = binary_normalize prec emax (- m) e false
  \/ binary_normalize prec emax m e false
     = SFopp (binary_normalize prec emax (- m) e false).
Proof.
  destruct m as [|p|p]; simpl.
  - left; reflexivity.
  - right. apply (binary_round_opp true).
  - right. apply (binary_round_opp false).
Qed.

Lemma SFsub_antisym (a b : spec_float) :
  SF64sub a b = SF64sub b a \/ SF64sub a b = SFopp (SF64sub b a).
Proof.
  unfold SF64sub.
  destruct a as [sa|sa| |sa ma ea], b as [sb|sb| |sb mb eb];
    try (left; reflexivity);
    try (right; reflexivity);
    try (destruct sa, sb; simpl; auto; fail);
    try (destruct sa; simpl; auto; fail);
    try (destruct sb; simpl; auto; fail).
  unfold SFsub. rewrite (Z.min_comm eb ea).
  set (A := cond_Zopp sa _). set (B := cond_Zopp sb _).
  replace (B - A)%Z with (- (A - B))%Z by lia.
  apply binary_normalize_opp.
Qed.

Lemma sub_antisym (u v : float) : u - v = v - u \/ u - v = - (v - u).
Proof.
  destruct (SFsub_antisym (Prim2SF u) (Prim2SF v)) as [H|H].
  - left. apply Prim2SF_inj. now rewrite !sub_spec.
  - right. apply Prim2SF_inj. now rewrite opp_spec, !sub_spec.
Qed.

(** *** Squares *)

Lemma is_nan_opp (w : float) : is_nan (- w) = is_nan w.
Proof.
  destruct (is_nan w) eqn:E.
  - apply is_nan_spec. apply is_nan_spec in E.
    rewrite opp_spec, E. reflexivity.
  - apply not_nan_spec. apply not_nan_spec in E.
    rewrite opp_spec. destruct (Prim2SF w); simpl; congruence.
Qed.

Lemma abs_opp (w : float) : abs (- w) = abs w.
Proof.
  apply Prim2SF_inj. rewrite !abs_spec, opp_spec.
  destruct (Prim2SF w); reflexivity.
Qed.

Lemma mul_opp_opp (w : float) : (- w) * (- w) = w * w.
Proof.
  apply Prim2SF_inj. rewrite !mul_spec, opp_spec. unfold SF64mul.
  destruct (Prim2SF w) as [s|s| |s m e]; simpl; try reflexivity;
    destruct s; reflexivity.
Qed.

Lemma pow2_opp (w : float) : PyFloat.pow2 (- w) = PyFloat.pow2 w.
Proof.
  unfold PyFloat.pow2, is_infinity.
  rewrite is_nan_opp, abs_opp, mul_opp_opp.
  destruct (is_nan w) eqn:E; [|reflexivity].
  f_equal. apply Prim2SF_inj. apply is_nan_spec in E.
  rewrite opp_spec, E. reflexivity.
Qed.

Lemma pow2_sub_sym (u v : float) : PyFloat.pow2 (u - v) = PyFloat.pow2 (v - u).
Proof.
  destruct (sub_antisym u v) as [->| ->]; [reflexivity|apply pow2_opp].
Qed.

(** *** Results that are numbers *)

Lemma nonneg_not_nan (v : float) : nonneg (Prim2SF v) -> is_nan v = false.
Proof.
  intros H. apply not_nan_spec. intros E. rewrite E in H. exact H.
Qed.

Lemma shr_1_nonneg (mrs : shr_record) :
  (0 <= shr_m mrs)%Z -> (0 <= shr_m (shr_1 mrs))%Z.
Proof.
  destruct mrs as [m r t]. simpl.
  destruct m as [|[p|p|]|[p|p|]]; simpl; lia.
Qed.

Lemma iter_shr_1_nonneg (p : positive) :
  forall mrs, (0 <= shr_m mrs)%Z -> (0 <= shr_m (SpecFloat.iter_pos shr_1 p mrs))%Z.
Proof.
  induction p as [p IH|p IH|]; simpl; intros mrs H.
  - apply IH, IH, shr_1_nonneg, H.
  - apply IH, IH, H.
  - apply shr_1_nonneg, H.
Qed.

Lemma shr_fexp_nonneg (m e : Z) (l : location) :
  (0 <= m)%Z -> (0 <= shr_m (fst (shr_fexp prec emax m e l)))%Z.
Proof.
  intros H. unfold shr_fexp, shr.
  assert (H0 : (0 <= shr_m (shr_record_of_loc m l))%Z)
    by (destruct l as [|[ | | ]]; exact H).
  destruct (_ - e)%Z; simpl; auto using iter_shr_1_nonneg.
Qed.

Lemma round_nearest_even_nonneg (m : Z) (l : location) :
  (0 <= m)%Z -> (0 <= round_nearest_even m l)%Z.
Proof.
  intros H. destruct l as [|[ | | ]]; simpl; try lia.
  destruct (Z.even m); lia.
Qed.

Lemma binary_round_aux_nonneg (m e : Z) (l : location) :
  (0 <= m)%Z -> nonneg (binary_round_aux prec emax false m e l).
Proof.
  intros H. unfold binary_round_aux.
  pose proof (shr_fexp_nonneg m e l H) as H1.
  destruct (shr_fexp prec emax m e l) as [mrs' e']. simpl in H1.
  pose proof (shr_fexp_nonneg _ e' loc_Exact
                (round_nearest_even_nonneg _ (loc_of_shr_record mrs') H1)) as H2.
  destruct (shr_fexp prec emax _ e' loc_Exact) as [mrs'' e'']. simpl in H2.
  destruct (shr_m mrs'') as [|q|q]; simpl; auto; try lia.
  destruct (e'' <=? _)%Z; exact eq_refl.
Qed.

Lemma binary_round_aux_not_nan (s : bool) (m e : Z) (l : location) :
  (0 <= m)%Z -> binary_round_aux prec emax s m e l <> S754_nan.
Proof.
  intros H. pose proof (binary_round_aux_nonneg m e l H) as N.
  destruct s.
  - pose proof (binary_round_aux_opp false m e l) as E. simpl in E.
    rewrite E.
    destruct (binary_round_aux prec emax false m e l); simpl in *; congruence.
  - destruct (binary_round_aux prec emax false m e l); simpl in *; congruence.
Qed.

Lemma binary_round_not_nan (s : bool) (m : positive) (e : Z) :
  binary_round prec emax s m e <> S754_nan.
Proof.
  unfold binary_round. destruct (shl_align m e _) as [mz ez].
  apply binary_round_aux_not_nan. lia.
Qed.

Lemma binary_round_nonneg (m : positive) (e : Z) :
  nonneg (binary_round prec emax false m e).
Proof.
  unfold binary_round. destruct (shl_align m e _) as [mz ez].
  apply binary_round_aux_nonneg. lia.
Qed.

Lemma sub_not_nan (u v : float) :
  is_finite u = true -> is_finite v = true -> is_nan (u - v) = false.
Proof.
  rewrite !is_finite_spec, not_nan_spec, sub_spec. unfold SF64sub.
  intros [su|su mu eu] [sv|sv mv ev]; simpl; try congruence.
  - destruct su, sv; congruence.
  - unfold binary_normalize.
    destruct (_ - _)%Z; try apply binary_round_not_nan. congruence.
Qed.

Lemma pow2_nonneg (w r : float) :
  is_nan w = false -> PyFloat.pow2 w = Ok r -> nonneg (Prim2SF r).
Proof.
  unfold PyFloat.pow2. intros Hn. rewrite Hn.
  destruct (is_infinity w) eqn:Hi.
  - intros [= <-]. reflexivity.
  - destruct (is_infinity (w * w)); [discriminate|]. intros [= <-].
    rewrite mul_spec. unfold SF64mul.
    apply not_nan_spec in Hn.
    destruct (Prim2SF w) as [s|s| |s m e] eqn:E; simpl;
      try exact I; try congruence.
    + assert (is_infinity w = true) by (apply is_infinity_spec; eauto).
      congruence.
    + rewrite xorb_nilpotent. apply binary_round_aux_nonneg. lia.
Qed.

Lemma add_nonneg (a b : float) :
  nonneg (Prim2SF a) -> nonneg (Prim2SF b) -> nonneg (Prim2SF (a + b)).
Proof.
  rewrite add_spec. unfold SF64add.
  destruct (Prim2SF a) as [sa|sa| |sa ma ea], (Prim2SF b) as [sb|sb| |sb mb eb];
    simpl; intros Ha Hb; subst; simpl;
    try exact I; try exact eq_refl; try contradiction.
  - destruct sa, sb; exact I.
  - apply binary_round_nonneg.
Qed.

Lemma sqrt_nonneg (a : float) : nonneg (Prim2SF a) -> nonneg (Prim2SF (sqrt a)).
Proof.
  rewrite sqrt_spec. unfold SF64sqrt.
  destruct (Prim2SF a) as [s|s| |s m e]; simpl; intros H; subst;
    try exact I; try exact eq_refl; try contradiction.
  unfold SFsqrt_core_binary.
  set (m' := match _ with Z0 => _ | Zpos _ => _ | Zneg _ => _ end).
  pose proof (Z.sqrtrem_sqrt m') as Hq. pose proof (Z.sqrt_nonneg m') as Hs.
  destruct (Z.sqrtrem m') as [q r]. simpl in Hq. subst q.
  apply binary_round_aux_nonneg, Hs.
Qed.

(** Squares and their sums are NaN or not below zero, so that the square
    root is defined on them. *)
Lemma pow2_result (w r : float) :
  PyFloat.pow2 w = Ok r -> Prim2SF r = S754_nan \/ nonneg (Prim2SF r).
Proof.
  intros H. destruct (is_nan w) eqn:E.
  - left. unfold PyFloat.pow2 in H. rewrite E in H. injection H as <-.
    now apply is_nan_spec.
  - right. now apply (pow2_nonneg w).
Qed.

Lemma add_result (a b : float) :
  Prim2SF a = S754_nan \/ nonneg (Prim2SF a) ->
  Prim2SF b = S754_nan \/ nonneg (Prim2SF b) ->
  Prim2SF (a + b) = S754_nan \/ nonneg (Prim2SF (a + b)).
Proof.
  intros [Ha|Ha] [Hb|Hb].
  - left. now rewrite add_spec, Ha.
  - left. now rewrite add_spec, Ha.
  - left. rewrite add_spec, Hb. now destruct (Prim2SF a).
  - right. now apply add_nonneg.
Qed.

Lemma ltb_zero_result (v : float) :
  Prim2SF v = S754_nan \/ nonneg (Prim2SF v) -> (v <? 0) = false.
Proof.
  rewrite FloatAxioms.ltb_spec. change (Prim2SF 0) with (S754_zero false).
  intros [->|H]; [reflexivity|].
  destruct (Prim2SF v) as [s|s| |s m e]; simpl in H; subst;
    try reflexivity; contradiction.
Qed.

(** A strict comparison that holds excludes the large one the other way,
    NaN or not. *)
Lemma gt_not_leb (a b : float) : PyFloat.gt a b = true -> (a <=? b) = false.
Proof.
  unfold PyFloat.gt. rewrite FloatAxioms.leb_spec, FloatAxioms.ltb_spec.
  unfold SFleb, SFltb.
  rewrite (SFcompare_antisym (Prim2SF b) (Prim2SF a)).
  destruct (SFcompare (Prim2SF b) (Prim2SF a)) as [[ | | ]|];
    simpl; congruence.
Qed.

End FloatFacts.

(** * The helpers on skeletons *)

Lemma log_nil (os : OS) : log os [] = os.
Proof.
  destruct os as [p c]. unfold log. simpl. now rewrite app_nil_r.
Qed.

Lemma log_log (os : OS) (new more : list call) :
  log (log os new) more = log os (new ++ more).
Proof.
  unfold log. simpl. now rewrite app_assoc.
Qed.

Lemma emit_log (c : call) (os : OS) (new : list call) :
  emit c (log os new) = (Ok tt, log os (new ++ [c])).
Proof.
  unfold emit. fold (log (log os new) [c]). now rewrite log_log.
Qed.

Lemma index_in_bounds (coords : list coord) (i : nat) :
  (i < List.length coords)%nat -> index coords i = Ok (pt coords i).
Proof.
  intros H. unfold index, pt.
  destruct (nth_error coords i) as [c|] eqn:E.
  - now rewrite (nth_error_nth _ _ origin E).
  - apply nth_error_None in E. lia.
Qed.

Lemma index_out_of_bounds (coords : list coord) (i : nat) :
  (List.length coords <= i)%nat -> index coords i = Raise IndexError.
Proof.
  intros H. unfold index. apply nth_error_None in H. now rewrite H.
Qed.

Lemma index_raises_IndexError (coords : list coord) (i : nat) (e : exn) :
  index coords i = Raise e -> e = IndexError.
Proof.
  unfold index. destruct (nth_error coords i); congruence.
Qed.

Lemma get_hand_coords_21 (coords : list coord) :
  List.length coords = 21%nat -> get_hand_coords coords = Ok (named_points coords).
Proof.
  intros H. unfold get_hand_coords.
  rewrite !index_in_bounds by lia. reflexivity.
Qed.

Lemma get_hand_coords_short (coords : list coord) :
  (List.length coords < 21)%nat -> get_hand_coords coords = Raise IndexError.
Proof.
  intros H. unfold get_hand_coords.
  rewrite (index_out_of_bounds coords 20) by lia.
  destruct (index coords 8) as [?|e8] eqn:E8; simpl;
    [|now rewrite (index_raises_IndexError _ _ _ E8)].
  destruct (index coords 12) as [?|e12] eqn:E12; simpl;
    [|now rewrite (index_raises_IndexError _ _ _ E12)].
  destruct (index coords 16) as [?|e16] eqn:E16; simpl;
    [|now rewrite (index_raises_IndexError _ _ _ E16)].
  reflexivity.
Qed.

Lemma curled_in_bounds (coords : list coord) (tip joint : nat) :
  (tip < List.length coords)%nat -> (joint < List.length coords)%nat ->
  curled coords tip joint = Ok (negb (y (pt coords tip) <=? y (pt coords joint))).
Proof.
  intros Ht Hj. unfold curled. now rewrite !index_in_bounds by assumption.
Qed.

Lemma is_fist_21 (coords : list coord) :
  List.length coords = 21%nat -> is_fist coords = Ok (fist coords).
Proof.
  intros H. unfold is_fist, fist.
  rewrite !curled_in_bounds by lia.
  destruct (negb (y (pt coords 8) <=? _)), (negb (y (pt coords 12) <=? _)),
    (negb (y (pt coords 16) <=? _)); reflexivity.
Qed.

(** On numbers, the test of the source is the strict comparison of the
    specification. *)
Lemma fist_all_four_curled (coords : list coord) :
  forallb y_is_number coords = true -> fist coords = all_four_curled coords.
Proof.
  intros H. unfold fist, all_four_curled, tip_below_joint.
  assert (N : forall i, is_nan (y (pt coords i)) = false).
  { intros i. unfold pt.
    destruct (nth_in_or_default i coords origin) as [Hin| ->].
    - rewrite forallb_forall in H. specialize (H _ Hin).
      unfold y_is_number in H. now apply negb_true_iff in H.
    - reflexivity. }
  now rewrite !FloatFacts.not_leb_gt by apply N.
Qed.

(** * The distance *)

Lemma get_3d_distance_sym (a b : coord) :
  get_3d_distance a b = get_3d_distance b a.
Proof.
  unfold get_3d_distance.
  now rewrite (FloatFacts.pow2_sub_sym (x a)), (FloatFacts.pow2_sub_sym (y a)),
    (FloatFacts.pow2_sub_sym (z a)).
Qed.

Lemma finite_coord_spec (c : coord) :
  finite_coord c = true <->
  is_finite (x c) = true /\ is_finite (y c) = true /\ is_finite (z c) = true.
Proof.
  unfold finite_coord. rewrite !andb_true_iff. tauto.
Qed.

Lemma get_3d_distance_self (a : coord) :
  finite_coord a = true -> get_3d_distance a a = Ok 0.
Proof.
  rewrite finite_coord_spec. intros (Hx & Hy & Hz). unfold get_3d_distance.
  rewrite !FloatFacts.sub_diag by assumption. reflexivity.
Qed.

(** Between finite points the distance, when there is one, is a number. *)
Lemma get_3d_distance_number (a b : coord) (d : float) :
  finite_coord a = true -> finite_coord b = true ->
  get_3d_distance a b = Ok d -> is_nan d = false.
Proof.
  rewrite !finite_coord_spec. intros (Hxa & Hya & Hza) (Hxb & Hyb & Hzb).
  unfold get_3d_distance.
  destruct (PyFloat.pow2 (x a - x b)) as [dx|] eqn:Ex; [|discriminate].
  destruct (PyFloat.pow2 (y a - y b)) as [dy|] eqn:Ey; [|discriminate].
  destruct (PyFloat.pow2 (z a - z b)) as [dz|] eqn:Ez; [|discriminate].
  apply FloatFacts.pow2_nonneg in Ex, Ey, Ez;
    try (apply FloatFacts.sub_not_nan; assumption).
  simpl. unfold PyFloat.math_sqrt.
  destruct (_ <? 0); [discriminate|]. intros [= <-].
  apply FloatFacts.nonneg_not_nan, FloatFacts.sqrt_nonneg.
  now repeat apply FloatFacts.add_nonneg.
Qed.

(** The distance raises nothing but the [OverflowError] of a square. *)
Lemma pow2_raises (v : float) (e : exn) :
  PyFloat.pow2 v = Raise e -> e = OverflowError.
Proof.
  unfold PyFloat.pow2.
  destruct (is_nan v); [discriminate|].
  destruct (is_infinity v); [discriminate|].
  destruct (is_infinity (v * v)); congruence.
Qed.

Lemma get_3d_distance_raises_OverflowError (a b : coord) (e : exn) :
  get_3d_distance a b = Raise e -> e = OverflowError.
Proof.
  unfold get_3d_distance.
  destruct (PyFloat.pow2 (x a - x b)) as [dx|] eqn:Ex; simpl;
    [|intros [= <-]; now apply pow2_raises in Ex].
  destruct (PyFloat.pow2 (y a - y b)) as [dy|] eqn:Ey; simpl;
    [|intros [= <-]; now apply pow2_raises in Ey].
  destruct (PyFloat.pow2 (z a - z b)) as [dz|] eqn:Ez; simpl;
    [|intros [= <-]; now apply pow2_raises in Ez].
  apply FloatFacts.pow2_result in Ex, Ey, Ez.
  unfold PyFloat.math_sqrt.
  rewrite FloatFacts.ltb_zero_result
    by (repeat apply FloatFacts.add_result; assumption).
  discriminate.
Qed.

Lemma get_3d_distance_raises (a b : coord) (e : exn) :
  get_3d_distance a b = Raise e -> e <> IndexError.
Proof.
  intros H. apply get_3d_distance_raises_OverflowError in H. congruence.
Qed.

Lemma thumb_distances_raises (h : hand) (e : exn) :
  thumb_distances h = Raise e -> e <> IndexError.
Proof.
  unfold thumb_distances.
  repeat (match goal with
          | |- context [get_3d_distance ?a ?b] =>
              let E := fresh "E" in
              destruct (get_3d_distance a b) eqn:E; simpl;
              [|intros [= <-]; now apply get_3d_distance_raises in E]
          end).
  discriminate.
Qed.

Lemma int_raises (v : float) (e : exn) :
  PyFloat.int v = Raise e -> e <> IndexError.
Proof.
  unfold PyFloat.int. destruct (Prim2SF v); simpl; congruence.
Qed.

Lemma int_finite (v : float) :
  is_finite v = true -> exists n, PyFloat.int v = Ok n.
Proof.
  rewrite FloatFacts.is_finite_spec. unfold PyFloat.int.
  intros [s|s m e]; simpl; eauto.
Qed.

(** * The two methods as lists of calls *)

Lemma release_keys_run (self : Translator) (coords past_coords : list coord)
    (d past_d : distances) (os : OS) (new : list call) :
  List.length coords = 21%nat -> List.length past_coords = 21%nat ->
  release_keys self coords past_coords d past_d (log os new)
  = (Ok tt, log os (new ++ release_calls self d past_d (fist coords) (fist past_coords))).
Proof.
  intros Hc Hp. unfold release_keys, release_calls.
  repeat (match goal with
          | |- context [if released ?s ?a ?b then _ else _] =>
              destruct (released s a b); [apply emit_log|]
          end).
  unfold bind, lift. rewrite (is_fist_21 _ Hc), (is_fist_21 _ Hp).
  destruct (fist coords), (fist past_coords); simpl;
    try apply emit_log; unfold ret; now rewrite app_nil_r.
Qed.

Lemma navigate_run (palm_coords past_palm_coords : coord) (rest : M unit)
    (rest_calls : list call) (os : OS) (new : list call) :
  rest (log os new) = (Ok tt, log os (new ++ rest_calls)) ->
  navigate palm_coords past_palm_coords rest (log os new)
  = (Ok tt, log os (new ++ navigate_calls palm_coords past_palm_coords rest_calls)).
Proof.
  intros H. unfold navigate, navigate_calls.
  repeat (match goal with
          | |- context [if ?b then emit _ else _] =>
              destruct b; [apply emit_log|]
          end).
  exact H.
Qed.

Lemma keyboard_run (self : Translator) (coords past_coords : list coord)
    (d past_d : distances) (os : OS) :
  List.length coords = 21%nat -> List.length past_coords = 21%nat ->
  thumb_distances (named_points coords) = Ok d ->
  thumb_distances (named_points past_coords) = Ok past_d ->
  translate_landmarks_to_keyboard_action self coords past_coords os
  = (Ok tt, log os (keyboard_calls self coords past_coords d past_d)).
Proof.
  intros Hc Hp Hd Hpd. unfold translate_landmarks_to_keyboard_action.
  rewrite Hp. change (Nat.eqb 21 0) with false. cbv iota.
  unfold keyboard_calls.
  pose proof (fun new => release_keys_run self coords past_coords d past_d os new Hc Hp)
    as Hrest.
  set (rest_calls := release_calls self d past_d (fist coords) (fist past_coords)) in *.
  unfold bind at 1, lift at 1. rewrite (get_hand_coords_21 _ Hc).
  unfold bind at 1, lift at 1. rewrite (get_hand_coords_21 _ Hp).
  unfold bind at 1, lift at 1. rewrite Hd.
  unfold bind at 1, lift at 1. rewrite Hpd.
  unfold bind at 1, lift at 1. rewrite (is_fist_21 _ Hc).
  cbn [palm named_points].
  rewrite <- (log_nil os) at 1.
  destruct (fist coords); [|apply (Hrest [])].
  unfold bind at 1, lift at 1. rewrite (is_fist_21 _ Hp).
  unfold bind at 1.
  assert (E : (if negb (fist past_coords)
               then emit (keyboard_press "alt+tab") else ret tt) (log os [])
              = (Ok tt, log os ([] ++ (if negb (fist past_coords)
                                       then [keyboard_press "alt+tab"] else [])))).
  { destruct (negb (fist past_coords)); [apply emit_log|reflexivity]. }
  rewrite E. clear E. cbn [app].
  destruct (negb (is_shaking _ _ _)).
  - apply navigate_run, Hrest.
  - apply Hrest.
Qed.

Lemma keyboard_raise_now (self : Translator) (coords past_coords : list coord)
    (e : exn) (os : OS) :
  List.length coords = 21%nat -> List.length past_coords = 21%nat ->
  thumb_distances (named_points coords) = Raise e ->
  translate_landmarks_to_keyboard_action self coords past_coords os = (Raise e, os).
Proof.
  intros Hc Hp Hd. unfold translate_landmarks_to_keyboard_action.
  rewrite Hp. change (Nat.eqb 21 0) with false. cbv iota.
  unfold bind, lift.
  now rewrite (get_hand_coords_21 _ Hc), (get_hand_coords_21 _ Hp), Hd.
Qed.

Lemma keyboard_raise_before (self : Translator) (coords past_coords : list coord)
    (d : distances) (e : exn) (os : OS) :
  List.length coords = 21%nat -> List.length past_coords = 21%nat ->
  thumb_distances (named_points coords) = Ok d ->
  thumb_distances (named_points past_coords) = Raise e ->
  translate_landmarks_to_keyboard_action self coords past_coords os = (Raise e, os).
Proof.
  intros Hc Hp Hd Hpd. unfold translate_landmarks_to_keyboard_action.
  rewrite Hp. change (Nat.eqb 21 0) with false. cbv iota.
  unfold bind, lift.
  now rewrite (get_hand_coords_21 _ Hc), (get_hand_coords_21 _ Hp), Hd, Hpd.
Qed.

Lemma keyboard_outcome_run (self : Translator) (coords past_coords : list coord)
    (os : OS) :
  List.length coords = 21%nat -> List.length past_coords = 21%nat ->
  translate_landmarks_to_keyboard_action self coords past_coords os
  = finish (keyboard_outcome self coords past_coords) os.
Proof.
  intros Hc Hp. unfold keyboard_outcome.
  destruct (thumb_distances (named_points coords)) as [d|e] eqn:Hd;
    [|now apply keyboard_raise_now].
  destruct (thumb_distances (named_points past_coords)) as [past_d|e] eqn:Hpd;
    [|now apply (keyboard_raise_before self coords past_coords d)].
  now apply keyboard_run.
Qed.

Lemma mouse_outcome_run (self : Translator) (coords past_coords : list coord)
    (os : OS) :
  List.length coords = 21%nat -> past_coords <> [] ->
  translate_landmarks_to_mouse_action self coords past_coords os
  = finish (mouse_outcome self (position os) coords (pt past_coords 0)) os.
Proof.
  intros Hc Hp. unfold translate_landmarks_to_mouse_action, mouse_outcome.
  destruct past_coords as [|c0 past]; [congruence|].
  change (Nat.eqb (List.length (c0 :: past)) 0) with false. cbv iota.
  change (index (c0 :: past) 0) with (Ok c0).
  change (pt (c0 :: past) 0) with c0.
  unfold bind, lift, get_position.
  rewrite (get_hand_coords_21 _ Hc).
  cbn [palm index_tip thumb_tip middle_tip ring_tip named_points].
  destruct (get_3d_distance (pt coords 8) (pt coords 4)) as [index_d|];
    [|reflexivity].
  destruct (get_3d_distance (pt coords 12) (pt coords 4)) as [middle_d|];
    [|reflexivity].
  destruct (get_3d_distance (pt coords 16) (pt coords 4)) as [ring_d|];
    [|reflexivity].
  cbn [bind_result]. unfold mouse_calls, finish.
  destruct (is_shaking _ _ _); [now rewrite log_nil|].
  rewrite (is_fist_21 _ Hc).
  destruct (fist coords); [now rewrite log_nil|].
  destruct (index_d <=? _); [reflexivity|].
  destruct (ring_d <=? _); [reflexivity|].
  destruct (middle_d <=? _); [|reflexivity].
  destruct (PyFloat.int _); reflexivity.
Qed.

Lemma mouse_run (self : Translator) (coords past_coords : list coord)
    (index_d middle_d ring_d : float) (os : OS) :
  List.length coords = 21%nat -> past_coords <> [] ->
  get_3d_distance (pt coords 8) (pt coords 4) = Ok index_d ->
  get_3d_distance (pt coords 12) (pt coords 4) = Ok middle_d ->
  get_3d_distance (pt coords 16) (pt coords 4) = Ok ring_d ->
  translate_landmarks_to_mouse_action self coords past_coords os
  = finish (mouse_calls self (position os) coords (pt past_coords 0)
              index_d middle_d ring_d) os.
Proof.
  intros Hc Hp Hi Hm Hr. rewrite (mouse_outcome_run _ _ _ _ Hc Hp).
  unfold mouse_outcome. now rewrite Hi, Hm, Hr.
Qed.

(** Neither outcome is an [IndexError]. *)
Lemma keyboard_outcome_raises (self : Translator) (coords past_coords : list coord)
    (e : exn) :
  keyboard_outcome self coords past_coords = Raise e -> e <> IndexError.
Proof.
  unfold keyboard_outcome.
  destruct (thumb_distances (named_points coords)) eqn:Hd; simpl;
    [|intros [= <-]; now apply thumb_distances_raises in Hd].
  destruct (thumb_distances (named_points past_coords)) eqn:Hpd; simpl;
    [discriminate|intros [= <-]; now apply thumb_distances_raises in Hpd].
Qed.

Lemma mouse_outcome_raises (self : Translator) (cursor : float * float)
    (coords : list coord) (past_palm : coord) (e : exn) :
  mouse_outcome self cursor coords past_palm = Raise e -> e <> IndexError.
Proof.
  unfold mouse_outcome.
  repeat (match goal with
          | |- context [get_3d_distance ?a ?b] =>
              let E := fresh "E" in
              destruct (get_3d_distance a b) eqn:E; simpl;
              [|intros [= <-]; now apply get_3d_distance_raises in E]
          end).
  unfold mouse_calls.
  repeat (match goal with
          | |- context [if ?c then _ else _] => destruct c; try discriminate
          end).
  destruct (PyFloat.int _) eqn:Hn; simpl; [discriminate|].
  intros [= <-]. now apply int_raises in Hn.
Qed.

(** * Skeletons that are too short, numbers, and falling edges *)

(** The points of the data model meet the hypotheses on numbers made
    below. *)
Lemma valid_point_finite (c : coord) :
  valid_point c = true -> finite_coord c = true.
Proof.
  unfold valid_point, finite_coord. rewrite !andb_true_iff.
  intros [[Hx Hy] Hz].
  auto using FloatFacts.unit_interval_is_finite.
Qed.

Lemma valid_points_are_numbers (coords : list coord) :
  forallb valid_point coords = true ->
  finite_skeleton coords = true /\ forallb y_is_number coords = true.
Proof.
  intros H. rewrite forallb_forall in H. unfold finite_skeleton.
  split; apply forallb_forall; intros c Hc; specialize (H c Hc).
  - now apply valid_point_finite.
  - apply valid_point_finite, finite_coord_spec in H.
    destruct H as (_ & Hy & _). unfold y_is_number.
    apply FloatFacts.is_finite_spec in Hy. apply negb_true_iff.
    apply FloatFacts.not_nan_spec. intros E. rewrite E in Hy. inversion Hy.
Qed.

Lemma is_fist_short_never_true (short : list coord) :
  (List.length short < 21)%nat -> is_fist short <> Ok true.
Proof.
  intros H. unfold is_fist.
  assert (E : curled short 20 18 = Raise IndexError).
  { unfold curled. now rewrite (index_out_of_bounds short 20) by lia. }
  rewrite E.
  destruct (curled short 8 6) as [[|]|]; simpl; try discriminate.
  destruct (curled short 12 10) as [[|]|]; simpl; try discriminate.
  destruct (curled short 16 14) as [[|]|]; simpl; discriminate.
Qed.

Lemma is_fist_very_short (short : list coord) :
  (List.length short <= 8)%nat -> is_fist short = Raise IndexError.
Proof.
  intros H. unfold is_fist, curled.
  now rewrite (index_out_of_bounds short 8) by lia.
Qed.

Lemma translate_short (self : Translator) (short past_coords : list coord) (os : OS) :
  (List.length short < 21)%nat -> past_coords <> [] ->
  translate_landmarks_to_keyboard_action self short past_coords os
  = (Raise IndexError, os)
  /\ translate_landmarks_to_mouse_action self short past_coords os
     = (Raise IndexError, os).
Proof.
  intros H Hp. destruct past_coords as [|c0 past]; [congruence|].
  unfold translate_landmarks_to_keyboard_action, translate_landmarks_to_mouse_action.
  change (Nat.eqb (List.length (c0 :: past)) 0) with false. cbv iota.
  unfold bind, lift, get_position.
  now rewrite (get_hand_coords_short short H).
Qed.

Lemma navigate_calls_number (palm_coords past_palm_coords : coord)
    (rest : list call) :
  is_nan (x palm_coords) = false -> is_nan (x past_palm_coords) = false ->
  navigate_calls palm_coords past_palm_coords rest
  = [keyboard_send (if x palm_coords <=? x past_palm_coords
                    then "shift+tab" else "tab")].
Proof.
  intros Hx Hpx. unfold navigate_calls.
  rewrite <- (FloatFacts.not_leb_gt _ _ Hx Hpx).
  destruct (x palm_coords <=? x past_palm_coords); reflexivity.
Qed.

Lemma finite_pt (coords : list coord) (i : nat) :
  finite_skeleton coords = true -> finite_coord (pt coords i) = true.
Proof.
  intros H. unfold pt.
  destruct (nth_in_or_default i coords origin) as [Hin| ->]; [|reflexivity].
  unfold finite_skeleton in H. rewrite forallb_forall in H. now apply H.
Qed.

Lemma thumb_distances_number (coords : list coord) (d : distances) :
  finite_skeleton coords = true ->
  thumb_distances (named_points coords) = Ok d ->
  is_nan (index_thumb d) = false /\ is_nan (middle_thumb d) = false
  /\ is_nan (ring_thumb d) = false /\ is_nan (pinkie_thumb d) = false.
Proof.
  intros H. unfold thumb_distances, named_points. simpl.
  destruct (get_3d_distance (pt coords 8) _) as [i|] eqn:Ei; [|discriminate].
  destruct (get_3d_distance (pt coords 12) _) as [m|] eqn:Em; [|discriminate].
  destruct (get_3d_distance (pt coords 16) _) as [r|] eqn:Er; [|discriminate].
  destruct (get_3d_distance (pt coords 20) _) as [p|] eqn:Ep; [|discriminate].
  simpl. intros [= <-]. simpl.
  repeat split; eapply get_3d_distance_number; eauto using finite_pt.
Qed.

Lemma released_falling_edge (self : Translator) (now before : float) :
  is_nan now = false -> is_nan (distance_threshold self) = false ->
  released self now before = falling_edge (distance_threshold self) now before.
Proof.
  intros Hn Ht. unfold released, falling_edge.
  now rewrite (FloatFacts.not_leb_gt _ _ Hn Ht).
Qed.

(** * The claims *)

(** ** C1: the finger keys and the fist *)

(** The claim as stated fails: a fist held with a still palm, whose index
    tip leaves the thumb, sends "space". *)
Lemma still_fist_sends_space :
  is_fist fist_apart = Ok true
  /\ fist_pinch <> []
  /\ translate_landmarks_to_keyboard_action gui_translator fist_apart fist_pinch
       desktop
     = (Ok tt, log desktop [keyboard_send "space"]).
Proof.
  split; [reflexivity|]. split; [discriminate|reflexivity].
Qed.

(** C1, amended: the finger keys space, enter, backspace and escape are
    sent only when the current skeleton is not a fist or the palm is
    shaking under the threshold shakeSensitivity + 0.008.  For every call
    with a previous skeleton of 21 points in which [is_fist] holds of the
    current one and the palm, whose abscissas are numbers, is not shaking
    under that threshold, none of the four keys is emitted. *)
Theorem finger_keys_not_sent_while_navigating (self : Translator)
    (coords past_coords : list coord) (os : OS) :
  List.length coords = 21%nat -> List.length past_coords = 21%nat ->
  is_fist coords = Ok true ->
  is_nan (x (pt coords 0)) = false -> is_nan (x (pt past_coords 0)) = false ->
  is_shaking (pt coords 0) (pt past_coords 0) (shake_sensitivity self + 0.008)
  = false ->
  exists r new,
    translate_landmarks_to_keyboard_action self coords past_coords os
    = (r, log os new)
    /\ forall c, In c new -> is_finger_key c = false.
Proof.
  intros Hc Hp Hf Hx Hpx Hs.
  rewrite (keyboard_outcome_run _ _ _ _ Hc Hp).
  rewrite (is_fist_21 _ Hc) in Hf. injection Hf as Hf.
  unfold keyboard_outcome.
  destruct (thumb_distances (named_points coords)) as [d|e];
    [|exists (Raise e), []; split; [simpl; now rewrite log_nil|intros c []]].
  destruct (thumb_distances (named_points past_coords)) as [past_d|e];
    [|exists (Raise e), []; split; [simpl; now rewrite log_nil|intros c []]].
  simpl. eexists _, _. split; [reflexivity|].
  unfold keyboard_calls. rewrite Hf, Hs. cbn [negb].
  rewrite (navigate_calls_number _ _ _ Hx Hpx).
  intros c Hin. apply in_app_or in Hin. destruct Hin as [Hin|[<-|[]]].
  - destruct (negb (fist past_coords)); [destruct Hin as [<-|[]]|destruct Hin].
    reflexivity.
  - destruct (_ <=? _); reflexivity.
Qed.

Lemma finger_keys_not_sent_while_navigating_witness :
  exists r new,
    translate_landmarks_to_keyboard_action gui_translator fist_apart_left fist_pinch
      desktop
    = (r, log desktop new)
    /\ forall c, In c new -> is_finger_key c = false.
Proof.
  apply finger_keys_not_sent_while_navigating; reflexivity.
Defined.

(** ** C2: the finger keys of an open hand *)

(** C2: with a previous skeleton of 21 points and a current one that is no
    fist, the key of the first finger, in the order index "space", middle
    "enter", ring "backspace", pinkie "escape", whose distance to the thumb
    is above the threshold now and was at most the threshold before is
    sent, and nothing else is done; at most one key is sent, and none when
    no finger has such a falling edge (the only call is then the release of
    "alt+tab" after a fist).  Coordinates are finite and the threshold is a
    number. *)
Theorem first_released_finger_sends_its_key (self : Translator)
    (coords past_coords : list coord) (d past_d : distances) (os : OS) :
  List.length coords = 21%nat -> List.length past_coords = 21%nat ->
  thumb_distances (named_points coords) = Ok d ->
  thumb_distances (named_points past_coords) = Ok past_d ->
  finite_skeleton coords = true ->
  is_nan (distance_threshold self) = false ->
  is_fist coords = Ok false ->
  let new :=
    match first_released_key (distance_threshold self) d past_d with
    | Some key => [keyboard_send key]
    | None => if fist past_coords then [keyboard_release "alt+tab"] else []
    end in
  translate_landmarks_to_keyboard_action self coords past_coords os
  = (Ok tt, log os new)
  /\ (List.length (filter is_send new) <= 1)%nat
  /\ (first_released_key (distance_threshold self) d past_d = None ->
      filter is_send new = []).
Proof.
  intros Hc Hp Hd Hpd Hfin Ht Hf new.
  rewrite (is_fist_21 _ Hc) in Hf. injection Hf as Hf.
  destruct (thumb_distances_number _ _ Hfin Hd) as (Ni & Nm & Nr & Np).
  assert (E : keyboard_calls self coords past_coords d past_d = new).
  { unfold keyboard_calls, release_calls. rewrite Hf.
    rewrite !released_falling_edge by assumption.
    unfold new, first_released_key. cbn [find fst snd option_map negb andb].
    repeat (match goal with
            | |- context [falling_edge ?t ?a ?b] => destruct (falling_edge t a b)
            end; cbn [option_map snd]; try reflexivity). }
  split; [|split].
  - rewrite (keyboard_run _ _ _ _ _ _ Hc Hp Hd Hpd). now rewrite E.
  - unfold new. destruct (first_released_key _ _ _); simpl; [lia|].
    destruct (fist past_coords); simpl; lia.
  - unfold new. intros ->. now destruct (fist past_coords).
Qed.

(** Scenario C: the index tip was 0.05 from the thumb and is now 0.1 from
    it, the threshold is 0.06 and the hand is open. *)
Lemma first_released_finger_sends_its_key_witness :
  translate_landmarks_to_keyboard_action gui_translator pinch_released pinch desktop
  = (Ok tt, log desktop [keyboard_send "space"]).
Proof.
  exact (proj1 (first_released_finger_sends_its_key gui_translator
                  pinch_released pinch (distances_of pinch_released)
                  (distances_of pinch) desktop
                  eq_refl eq_refl eq_refl eq_refl eq_refl eq_refl eq_refl)).
Defined.

(** ** C3: the mouse channel *)

(** C3: with a current skeleton of 21 points and a non-empty previous one,
    the mouse channel makes at most one call, the one of the first rule
    that matches, in the order: palm shaking under shakeSensitivity, fist,
    index at the thumb (click), ring at the thumb (right click), middle at
    the thumb (scroll), else the move of the cursor from the position the
    operating system reports.  The call returns, unless [int] raises on a
    scroll product that is NaN or infinite.  Nothing of the previous
    skeleton but its palm is read: the click, right-click and scroll tests
    are level-triggered. *)
Theorem mouse_follows_first_matching_rule (self : Translator)
    (coords past_coords : list coord) (index_d middle_d ring_d : float)
    (fist_now : bool) (os : OS) :
  List.length coords = 21%nat -> past_coords <> [] ->
  get_3d_distance (pt coords 8) (pt coords 4) = Ok index_d ->
  get_3d_distance (pt coords 12) (pt coords 4) = Ok middle_d ->
  get_3d_distance (pt coords 16) (pt coords 4) = Ok ring_d ->
  is_fist coords = Ok fist_now ->
  let rule :=
    mouse_rule self (position os) (pt coords 0) (pt past_coords 0) fist_now
      index_d ring_d middle_d in
  let amount :=
    PyFloat.int (scroll_sensitivity self
                 * (y (pt coords 0) - y (pt past_coords 0))) in
  (exists r new,
      translate_landmarks_to_mouse_action self coords past_coords os
      = (r, log os new)
      /\ (List.length new <= 1)%nat
      /\ ((r = Ok tt /\ gesture_of new = Some rule)
          \/ (rule = scroll /\ new = [] /\ exists e, r = Raise e /\ amount = Raise e))
      /\ (is_finite (scroll_sensitivity self
                     * (y (pt coords 0) - y (pt past_coords 0))) = true ->
          r = Ok tt))
  /\ (forall other_past : list coord,
        other_past <> [] -> pt other_past 0 = pt past_coords 0 ->
        translate_landmarks_to_mouse_action self coords other_past os
        = translate_landmarks_to_mouse_action self coords past_coords os).
Proof.
  intros Hc Hp Hi Hm Hr Hf rule amount.
  rewrite (is_fist_21 _ Hc) in Hf. injection Hf as Hf.
  split.
  - rewrite (mouse_run _ _ _ _ _ _ _ Hc Hp Hi Hm Hr).
    unfold mouse_calls. unfold rule, mouse_rule. rewrite Hf.
    destruct (is_shaking _ _ _);
      [exists (Ok tt), []; simpl; repeat split; auto|].
    destruct fist_now; [exists (Ok tt), []; simpl; repeat split; auto|].
    destruct (index_d <=? _);
      [exists (Ok tt), [mouse_click]; simpl; repeat split; auto|].
    destruct (ring_d <=? _);
      [exists (Ok tt), [mouse_right_click]; simpl; repeat split; auto|].
    destruct (middle_d <=? _).
    + fold amount. destruct amount as [n|e] eqn:En.
      * exists (Ok tt), [mouse_wheel (- n)]. simpl. repeat split; auto.
      * exists (Raise e), []. simpl. rewrite log_nil. repeat split; auto.
        -- right. repeat split. now exists e.
        -- intros Hfin. apply int_finite in Hfin. destruct Hfin as [n Hn].
           unfold amount in En. congruence.
    + eexists (Ok tt), [mouse_move _ _]. simpl. repeat split; auto.
  - intros other_past Hother Hsame.
    rewrite (mouse_outcome_run _ _ _ _ Hc Hp), (mouse_outcome_run _ _ _ _ Hc Hother).
    now rewrite Hsame.
Qed.

(** A pinch held while the palm moves: a click, whatever the fingers were
    before. *)
Lemma mouse_follows_first_matching_rule_witness :
  exists r new,
    translate_landmarks_to_mouse_action gui_translator pinch_right open_hand desktop
    = (r, log desktop new)
    /\ r = Ok tt /\ gesture_of new = Some left_click.
Proof.
  destruct (mouse_follows_first_matching_rule gui_translator pinch_right open_hand
              (index_thumb (distances_of pinch_right))
              (middle_thumb (distances_of pinch_right))
              (ring_thumb (distances_of pinch_right)) false desktop
              eq_refl ltac:(discriminate) eq_refl eq_refl eq_refl eq_refl)
    as ((r & new & H1 & _ & [H2|(H & _)] & _) & _).
  - exists r, new. split; [exact H1|exact H2].
  - discriminate H.
Defined.

(** ** C4: the scroll amount *)

(** The claim as stated fails: with the palm lower by 1/128 and a scroll
    sensitivity of 200 the product is 1.5625; the method scrolls by -1, the
    integer part, where minus the rounded product is -2. *)
Lemma scroll_amount_is_not_rounded :
  translate_landmarks_to_mouse_action gui_translator
    (scroll_pose 0.5078125) (scroll_pose 0.5) desktop
  = (Ok tt, log desktop [mouse_wheel (-1)])
  /\ scroll_sensitivity gui_translator * (0.5078125 - 0.5) = 1.5625
  /\ PyFloat.round 1.5625 = Ok 2%Z
  /\ PyFloat.int 1.5625 = Ok 1%Z.
Proof.
  repeat split.
Qed.

(** C4, amended: in the scroll branch the call is one [mouse.wheel] of
    minus the integer part (truncation toward zero, Python's [int]) of
    scrollSensitivity * (palm.y - previous palm.y), and no cursor move;
    when that product is NaN or infinite [int] raises and nothing is
    called.  When the difference computed is -0.01 and scrollSensitivity is
    200, the call is a scroll of 2. *)
Theorem scroll_amount_is_truncated (self : Translator)
    (coords past_coords : list coord) (index_d middle_d ring_d : float) (os : OS) :
  List.length coords = 21%nat -> past_coords <> [] ->
  get_3d_distance (pt coords 8) (pt coords 4) = Ok index_d ->
  get_3d_distance (pt coords 12) (pt coords 4) = Ok middle_d ->
  get_3d_distance (pt coords 16) (pt coords 4) = Ok ring_d ->
  is_shaking (pt coords 0) (pt past_coords 0) (shake_sensitivity self) = false ->
  is_fist coords = Ok false ->
  PyFloat.gt index_d (distance_threshold self) = true ->
  PyFloat.gt ring_d (distance_threshold self) = true ->
  (middle_d <=? distance_threshold self) = true ->
  translate_landmarks_to_mouse_action self coords past_coords os
  = match PyFloat.int (scroll_sensitivity self
                       * (y (pt coords 0) - y (pt past_coords 0))) with
    | Ok n => (Ok tt, log os [mouse_wheel (- n)])
    | Raise e => (Raise e, os)
    end
  /\ (scroll_sensitivity self = 200 ->
      y (pt coords 0) - y (pt past_coords 0) = (-0.01)%float ->
      translate_landmarks_to_mouse_action self coords past_coords os
      = (Ok tt, log os [mouse_wheel 2])).
Proof.
  intros Hc Hp Hi Hm Hr Hs Hf Gi Gr Lm.
  rewrite (is_fist_21 _ Hc) in Hf. injection Hf as Hf.
  apply FloatFacts.gt_not_leb in Gi, Gr.
  assert (E : translate_landmarks_to_mouse_action self coords past_coords os
              = match PyFloat.int (scroll_sensitivity self
                                   * (y (pt coords 0) - y (pt past_coords 0))) with
                | Ok n => (Ok tt, log os [mouse_wheel (- n)])
                | Raise e => (Raise e, os)
                end).
  { rewrite (mouse_run _ _ _ _ _ _ _ Hc Hp Hi Hm Hr).
    unfold mouse_calls. rewrite Hs, Hf, Gi, Gr, Lm.
    now destruct (PyFloat.int _). }
  split; [exact E|].
  intros Hss Hdy. rewrite E, Hss, Hdy. reflexivity.
Qed.

(** Scenario D: the middle tip on the thumb, the palm from height 0.01 to
    0, a scroll sensitivity of 200. *)
Lemma scroll_amount_is_truncated_witness :
  translate_landmarks_to_mouse_action gui_translator
    (scroll_pose 0) (scroll_pose 0.01) desktop
  = (Ok tt, log desktop [mouse_wheel 2]).
Proof.
  exact (proj2 (scroll_amount_is_truncated gui_translator
                  (scroll_pose 0) (scroll_pose 0.01)
                  (index_thumb (distances_of (scroll_pose 0)))
                  (middle_thumb (distances_of (scroll_pose 0)))
                  (ring_thumb (distances_of (scroll_pose 0))) desktop
                  eq_refl ltac:(discriminate) eq_refl eq_refl eq_refl eq_refl
                  eq_refl eq_refl eq_refl eq_refl)
               eq_refl eq_refl).
Defined.

(** The same scenario from height 0.11 to 0.1: the subtraction gives
    -0.009999999999999995, the product is above -2 and the scroll is 1. *)
Example scroll_of_a_decimal_decrease :
  translate_landmarks_to_mouse_action gui_translator
    (scroll_pose 0.1) (scroll_pose 0.11) desktop
  = (Ok tt, log desktop [mouse_wheel 1]).
Proof.
  reflexivity.
Qed.

(** ** C5: the alt-tab latch *)

(** C5: with skeletons of 21 points, "alt+tab" is pressed exactly when the
    current skeleton is a fist and the previous one is not, and then once;
    it is released exactly when the current skeleton is no fist, the
    previous one is a fist and no finger key was sent in the call, which is
    when no finger has been released. *)
Theorem alt_tab_follows_the_fist_edges (self : Translator)
    (coords past_coords : list coord) (d past_d : distances)
    (fist_now fist_before : bool) (os : OS) :
  List.length coords = 21%nat -> List.length past_coords = 21%nat ->
  thumb_distances (named_points coords) = Ok d ->
  thumb_distances (named_points past_coords) = Ok past_d ->
  is_fist coords = Ok fist_now -> is_fist past_coords = Ok fist_before ->
  exists new,
    translate_landmarks_to_keyboard_action self coords past_coords os
    = (Ok tt, log os new)
    /\ List.length (filter (is_press "alt+tab") new)
       = (if fist_now && negb fist_before then 1 else 0)%nat
    /\ List.length (filter (is_release "alt+tab") new)
       = (if negb fist_now && fist_before && negb (existsb is_finger_key new)
          then 1 else 0)%nat
    /\ (fist_now = false ->
        existsb is_finger_key new
        = released self (index_thumb d) (index_thumb past_d)
          || released self (middle_thumb d) (middle_thumb past_d)
          || released self (ring_thumb d) (ring_thumb past_d)
          || released self (pinkie_thumb d) (pinkie_thumb past_d)).
Proof.
  intros Hc Hp Hd Hpd Hf Hpf.
  rewrite (is_fist_21 _ Hc) in Hf. injection Hf as Hf.
  rewrite (is_fist_21 _ Hp) in Hpf. injection Hpf as Hpf.
  exists (keyboard_calls self coords past_coords d past_d).
  split; [now apply keyboard_run|].
  unfold keyboard_calls, navigate_calls, release_calls. rewrite Hf, Hpf.
  destruct fist_now, fist_before; cbn [negb andb app];
    repeat (match goal with
            | |- context [released ?s ?a ?b] => destruct (released s a b)
            | |- context [is_shaking ?a ?b ?c] => destruct (is_shaking a b c)
            | |- context [PyFloat.gt ?a ?b] => destruct (PyFloat.gt a b)
            | |- context [?a <=? ?b] => destruct (a <=? b)
            end);
    repeat split; intros; try reflexivity; try discriminate.
Qed.

(** Scenario A: a fist now, an open hand before. *)
Lemma alt_tab_follows_the_fist_edges_witness :
  exists new,
    translate_landmarks_to_keyboard_action gui_translator (fist_at 0.5) open_hand
      desktop
    = (Ok tt, log desktop new)
    /\ List.length (filter (is_press "alt+tab") new) = 1%nat
    /\ List.length (filter (is_release "alt+tab") new) = 0%nat.
Proof.
  destruct (alt_tab_follows_the_fist_edges gui_translator (fist_at 0.5) open_hand
              (distances_of (fist_at 0.5)) (distances_of open_hand) true false
              desktop eq_refl eq_refl eq_refl eq_refl eq_refl eq_refl)
    as (new & H1 & H2 & H3 & _).
  exists new. split; [exact H1|]. split; [exact H2|exact H3].
Defined.

(** ** C6: navigation with a fist *)

(** C6: when the current skeleton is a fist, the previous one has 21 points
    and the palm, whose abscissas are numbers, is not shaking under
    shakeSensitivity + 0.008, the call sends exactly one directional key,
    after the press of "alt+tab" when the previous skeleton is no fist, and
    returns.  The key is the one of the priority list, and it is always
    "shift+tab" or "tab": the vertical branches are never reached. *)
Theorem fist_navigation_sends_one_key (self : Translator)
    (coords past_coords : list coord) (d past_d : distances) (os : OS) :
  List.length coords = 21%nat -> List.length past_coords = 21%nat ->
  thumb_distances (named_points coords) = Ok d ->
  thumb_distances (named_points past_coords) = Ok past_d ->
  is_fist coords = Ok true ->
  is_nan (x (pt coords 0)) = false -> is_nan (x (pt past_coords 0)) = false ->
  is_shaking (pt coords 0) (pt past_coords 0) (shake_sensitivity self + 0.008)
  = false ->
  let key := direction_key (pt coords 0) (pt past_coords 0) in
  let pressed :=
    if fist past_coords then [] else [keyboard_press "alt+tab"] in
  translate_landmarks_to_keyboard_action self coords past_coords os
  = (Ok tt, log os (pressed ++ [keyboard_send key]))
  /\ filter is_send (pressed ++ [keyboard_send key]) = [keyboard_send key]
  /\ (key = "shift+tab"%string \/ key = "tab"%string)
  /\ (key = "shift+tab"%string <->
      (x (pt coords 0) <=? x (pt past_coords 0)) = true).
Proof.
  intros Hc Hp Hd Hpd Hf Hx Hpx Hs key pressed.
  rewrite (is_fist_21 _ Hc) in Hf. injection Hf as Hf.
  assert (K : key = if x (pt coords 0) <=? x (pt past_coords 0)
                    then "shift+tab"%string else "tab"%string).
  { unfold key, direction_key.
    rewrite <- (FloatFacts.not_leb_gt _ _ Hx Hpx).
    destruct (_ <=? _); reflexivity. }
  repeat split.
  - rewrite (keyboard_run _ _ _ _ _ _ Hc Hp Hd Hpd).
    unfold keyboard_calls. rewrite Hf, Hs. cbn [negb].
    rewrite (navigate_calls_number _ _ _ Hx Hpx), <- K.
    unfold pressed. now destruct (fist past_coords).
  - unfold pressed. now destruct (fist past_coords).
  - rewrite K. destruct (_ <=? _); auto.
  - rewrite K. destruct (_ <=? _); [reflexivity|discriminate].
  - rewrite K. intros ->. reflexivity.
Qed.

(** Scenario B: fist before and now, the palm from abscissa 0.5 to 0.3. *)
Lemma fist_navigation_sends_one_key_witness :
  translate_landmarks_to_keyboard_action gui_translator (fist_at 0.3) (fist_at 0.5)
    desktop
  = (Ok tt, log desktop [keyboard_send "shift+tab"]).
Proof.
  exact (proj1 (fist_navigation_sends_one_key gui_translator
                  (fist_at 0.3) (fist_at 0.5)
                  {| index_thumb := 0.25; middle_thumb := 0.25;
                     ring_thumb := 0.25; pinkie_thumb := 0.25 |}
                  {| index_thumb := 0.25; middle_thumb := 0.25;
                     ring_thumb := 0.25; pinkie_thumb := 0.25 |}
                  desktop eq_refl eq_refl eq_refl eq_refl eq_refl eq_refl eq_refl
                  eq_refl)).
Defined.

(** ** C7: no previous skeleton *)

(** C7: when the previous landmark list is empty, both translate methods
    return at once: no call to the keyboard or the mouse, the state is the
    one they were entered in, and no exception is raised, whatever the
    current landmark list is. *)
Theorem empty_previous_is_no_action (self : Translator) (coords : list coord) (os : OS) :
  translate_landmarks_to_keyboard_action self coords [] os = (Ok tt, os)
  /\ translate_landmarks_to_mouse_action self coords [] os = (Ok tt, os).
Proof.
  split; reflexivity.
Qed.

(** ** C8: the fist *)

(** C8: on a skeleton of 21 points whose heights are numbers, [is_fist]
    returns true iff each of the four fingertips 8, 12, 16, 20 has a y
    strictly greater than its mid-joint 6, 10, 14, 18; no other landmark
    (the thumb among them) has a part in it; and a skeleton with a finger
    that is not curled yields false. *)
Theorem is_fist_iff_all_four_curled (coords : list coord) :
  List.length coords = 21%nat ->
  forallb y_is_number coords = true ->
  is_fist coords = Ok (all_four_curled coords)
  /\ (is_fist coords = Ok true <->
      PyFloat.gt (y (pt coords 8)) (y (pt coords 6)) = true
      /\ PyFloat.gt (y (pt coords 12)) (y (pt coords 10)) = true
      /\ PyFloat.gt (y (pt coords 16)) (y (pt coords 14)) = true
      /\ PyFloat.gt (y (pt coords 20)) (y (pt coords 18)) = true)
  /\ (forall other : list coord,
        List.length other = 21%nat ->
        (forall i, In i [6; 8; 10; 12; 14; 16; 18; 20]%nat -> pt other i = pt coords i) ->
        is_fist other = is_fist coords)
  /\ (forall tip joint : nat,
        In (tip, joint) [(8, 6); (12, 10); (16, 14); (20, 18)]%nat ->
        tip_below_joint coords tip joint = false ->
        is_fist coords = Ok false).
Proof.
  intros Hlen Hnum.
  pose proof (is_fist_21 coords Hlen) as E.
  rewrite (fist_all_four_curled coords Hnum) in E.
  split; [exact E|]. split; [|split].
  - rewrite E. unfold all_four_curled, tip_below_joint. split.
    + intros [= H]. rewrite !andb_true_iff in H. tauto.
    + intros (H1 & H2 & H3 & H4). now rewrite H1, H2, H3, H4.
  - intros other Hother Hsame.
    rewrite (is_fist_21 other Hother), (is_fist_21 coords Hlen).
    unfold fist. rewrite !Hsame by (simpl; tauto). reflexivity.
  - intros tip joint Hin Hext. rewrite E. f_equal.
    unfold all_four_curled. simpl in Hin.
    destruct Hin as [[= <- <-]|[[= <- <-]|[[= <- <-]|[[= <- <-]|[]]]]];
      rewrite Hext; now rewrite ?andb_false_r.
Qed.

Lemma is_fist_iff_all_four_curled_witness :
  is_fist fist_pinch = Ok true /\ is_fist pinkie_out = Ok false.
Proof.
  split.
  - apply (proj1 (proj2 (is_fist_iff_all_four_curled fist_pinch eq_refl eq_refl))).
    repeat split; reflexivity.
  - apply (proj2 (proj2 (proj2
             (is_fist_iff_all_four_curled pinkie_out eq_refl eq_refl))) 20%nat 18%nat).
    + simpl. tauto.
    + reflexivity.
Defined.

(** ** C9: landmark accesses *)

(** The claim as stated fails on [is_fist]: on the first nine landmarks of
    an open hand, fewer than 21 points, it returns [False]; the first test
    of its [and] chain fails and landmark 20 is never read. *)
Lemma is_fist_returns_on_nine_points :
  (List.length nine_points < 21)%nat /\ is_fist nine_points = Ok false.
Proof.
  split; [vm_compute; lia|reflexivity].
Qed.

(** C9, amended: when the current skeleton has 21 points and the previous
    one has 21 points or is empty, every landmark access of the translate
    methods and of their helpers is in bounds, and no [IndexError] is
    raised.  On a skeleton with fewer than 21 points [get_hand_coords]
    raises [IndexError], and so do both methods when it is the current
    one; [is_fist] raises it when there are at most 8 points and never
    returns [True], but it may return [False]. *)
Theorem landmark_accesses_in_bounds (self : Translator)
    (coords past_coords : list coord) (os : OS) :
  List.length coords = 21%nat ->
  List.length past_coords = 21%nat \/ past_coords = [] ->
  (forall i, In i used_landmarks -> index coords i = Ok (pt coords i))
  /\ get_hand_coords coords = Ok (named_points coords)
  /\ is_fist coords = Ok (fist coords)
  /\ fst (translate_landmarks_to_keyboard_action self coords past_coords os)
     <> Raise IndexError
  /\ fst (translate_landmarks_to_mouse_action self coords past_coords os)
     <> Raise IndexError
  /\ (forall short : list coord,
        (List.length short < 21)%nat ->
        get_hand_coords short = Raise IndexError
        /\ ((List.length short <= 8)%nat -> is_fist short = Raise IndexError)
        /\ is_fist short <> Ok true
        /\ (past_coords <> [] ->
            translate_landmarks_to_keyboard_action self short past_coords os
            = (Raise IndexError, os)
            /\ translate_landmarks_to_mouse_action self short past_coords os
               = (Raise IndexError, os))).
Proof.
  intros Hc Hp. repeat split.
  - intros i Hi. apply index_in_bounds. rewrite Hc.
    unfold used_landmarks in Hi. simpl in Hi.
    repeat (destruct Hi as [<-|Hi]; [lia|]). contradiction.
  - now apply get_hand_coords_21.
  - now apply is_fist_21.
  - destruct Hp as [Hp| ->]; [|discriminate].
    rewrite (keyboard_outcome_run _ _ _ _ Hc Hp).
    destruct (keyboard_outcome self coords past_coords) eqn:E; simpl;
      [discriminate|].
    apply keyboard_outcome_raises in E. congruence.
  - destruct Hp as [Hp| ->]; [|discriminate].
    assert (Hne : past_coords <> []) by (intros ->; discriminate).
    rewrite (mouse_outcome_run _ _ _ _ Hc Hne).
    destruct (mouse_outcome _ _ _ _) eqn:E; simpl; [discriminate|].
    apply mouse_outcome_raises in E. congruence.
  - now apply get_hand_coords_short.
  - now apply is_fist_very_short.
  - now apply is_fist_short_never_true.
  - now apply translate_short.
  - now apply translate_short.
Qed.

Lemma landmark_accesses_in_bounds_witness :
  get_hand_coords fist_apart = Ok (named_points fist_apart)
  /\ is_fist fist_apart = Ok (fist fist_apart)
  /\ get_hand_coords nine_points = Raise IndexError.
Proof.
  pose proof (landmark_accesses_in_bounds gui_translator fist_apart fist_pinch
                desktop eq_refl (or_introl eq_refl)) as (_ & H1 & H2 & _ & _ & H3).
  split; [exact H1|]. split; [exact H2|].
  apply (H3 nine_points). vm_compute. lia.
Defined.

(** ** C10: the distance *)

(** C10: the distance from a point to itself is zero, and the distance is
    symmetric.  Points have finite coordinates; between two points the two
    distances are the same value, and are equal for Python's [==] when the
    computation returns one (it raises [OverflowError], in both directions
    alike, when a squared difference is out of range). *)
Theorem get_3d_distance_zero_and_symmetric (a b : coord) :
  finite_coord a = true -> finite_coord b = true ->
  (exists d, get_3d_distance a a = Ok d /\ (d =? 0) = true)
  /\ get_3d_distance a b = get_3d_distance b a
  /\ (forall d, get_3d_distance a b = Ok d ->
        exists d', get_3d_distance b a = Ok d' /\ (d =? d') = true).
Proof.
  intros Ha Hb. split; [|split].
  - exists 0. split; [now apply get_3d_distance_self|reflexivity].
  - apply get_3d_distance_sym.
  - intros d Hd. exists d. split; [now rewrite get_3d_distance_sym|].
    pose proof (get_3d_distance_number a b d Ha Hb Hd) as N.
    unfold is_nan in N. now apply negb_false_iff in N.
Qed.

Lemma get_3d_distance_zero_and_symmetric_witness :
  (exists d, get_3d_distance thumb_c thumb_c = Ok d /\ (d =? 0) = true)
  /\ get_3d_distance thumb_c far = get_3d_distance far thumb_c
  /\ (forall d, get_3d_distance thumb_c far = Ok d ->
        exists d', get_3d_distance far thumb_c = Ok d' /\ (d =? d') = true).
Proof.
  apply (get_3d_distance_zero_and_symmetric thumb_c far); reflexivity.
Defined.

(** * Further properties of the translator *)

(** ** Shaking *)

Lemma abs_sub_sym (u v : float) : abs (u - v) = abs (v - u).
Proof.
  destruct (FloatFacts.sub_antisym u v) as [->| ->];
    [reflexivity|apply FloatFacts.abs_opp].
Qed.

(** X1: [is_shaking] does not depend on which of the two palms is the
    current one. *)
Theorem is_shaking_symmetric (palm_coords past_palm_coords : coord) (s : float) :
  is_shaking palm_coords past_palm_coords s
  = is_shaking past_palm_coords palm_coords s.
Proof.
  unfold is_shaking.
  now rewrite (abs_sub_sym (x palm_coords)), (abs_sub_sym (y palm_coords)),
    (abs_sub_sym (z palm_coords)).
Qed.

Lemma abs_ltb_positive (v s : float) : (abs v <? s) = true -> (0 <? s) = true.
Proof.
  rewrite !FloatAxioms.ltb_spec, abs_spec.
  change (Prim2SF 0) with (S754_zero false). unfold SFltb.
  destruct (Prim2SF v) as [sv|sv| |sv mv ev], (Prim2SF s) as [ss|ss| |ss ms es];
    simpl; try discriminate; try (destruct ss; discriminate); auto.
  destruct ss; [discriminate|reflexivity].
Qed.

Lemma is_shaking_same (p : coord) (s : float) :
  finite_coord p = true -> is_shaking p p s = (0 <? s).
Proof.
  rewrite finite_coord_spec. intros (Hx & Hy & Hz). unfold is_shaking.
  rewrite !FloatFacts.sub_diag by assumption.
  change (abs 0) with 0%float. now destruct (0 <? s).
Qed.

(** X2: nothing is shaking unless the sensitivity is above zero (a zero,
    negative or NaN sensitivity switches the filter off), and a finite palm
    that has not moved is shaking exactly when it is. *)
Theorem is_shaking_needs_positive_sensitivity
    (palm_coords past_palm_coords : coord) (s : float) :
  (is_shaking palm_coords past_palm_coords s = true -> (0 <? s) = true)
  /\ (finite_coord palm_coords = true ->
      is_shaking palm_coords palm_coords s = (0 <? s)).
Proof.
  split; [|apply is_shaking_same].
  unfold is_shaking. rewrite !andb_true_iff. intros [[H _] _].
  now apply abs_ltb_positive in H.
Qed.

Lemma is_shaking_needs_positive_sensitivity_witness :
  is_shaking (at_ 0.5 0.9 0) (at_ 0.5 0.9 0) 0.002 = true
  /\ is_shaking (at_ 0.5 0.9 0) (at_ 0.5 0.9 0) 0 = false.
Proof.
  split.
  - rewrite (proj2 (is_shaking_needs_positive_sensitivity
                      (at_ 0.5 0.9 0) (at_ 0.5 0.9 0) 0.002) eq_refl).
    reflexivity.
  - rewrite (proj2 (is_shaking_needs_positive_sensitivity
                      (at_ 0.5 0.9 0) (at_ 0.5 0.9 0) 0) eq_refl).
    reflexivity.
Defined.

(** ** A pose that is held *)

Lemma released_same (self : Translator) (d : float) : released self d d = false.
Proof.
  unfold released. now destruct (d <=? distance_threshold self).
Qed.

Lemma release_calls_same (self : Translator) (d : distances) (f : bool) :
  release_calls self d d f f = [].
Proof.
  unfold release_calls. rewrite !released_same. now destruct f.
Qed.

Lemma keyboard_calls_same (self : Translator) (coords : list coord) (d : distances) :
  (fist coords = true ->
   finite_coord (pt coords 0) = true
   /\ (0 <? shake_sensitivity self + 0.008) = true) ->
  keyboard_calls self coords coords d d = [].
Proof.
  intros H. unfold keyboard_calls. rewrite release_calls_same.
  destruct (fist coords); [|reflexivity].
  destruct (H eq_refl) as [Hfin Hs].
  now rewrite (is_shaking_same _ _ Hfin), Hs.
Qed.

Lemma thumb_distances_raises_OverflowError (h : hand) (e : exn) :
  thumb_distances h = Raise e -> e = OverflowError.
Proof.
  unfold thumb_distances.
  repeat (match goal with
          | |- context [get_3d_distance ?a ?b] =>
              let E := fresh "E" in
              destruct (get_3d_distance a b) eqn:E; simpl;
              [|intros [= <-];
                now apply get_3d_distance_raises_OverflowError in E]
          end).
  discriminate.
Qed.

Lemma keyboard_outcome_same (self : Translator) (coords : list coord) :
  (fist coords = true ->
   finite_coord (pt coords 0) = true
   /\ (0 <? shake_sensitivity self + 0.008) = true) ->
  keyboard_outcome self coords coords = Ok []
  \/ keyboard_outcome self coords coords = Raise OverflowError.
Proof.
  intros H. unfold keyboard_outcome.
  destruct (thumb_distances (named_points coords)) as [d|e] eqn:Hd; simpl.
  - left. now rewrite keyboard_calls_same.
  - right. now rewrite (thumb_distances_raises_OverflowError _ _ Hd).
Qed.

(** X3: the keyboard channel on twice the same skeleton of 21 points calls
    nothing and leaves the state as it is: always when the hand is open,
    and for a fist when its palm is finite and shakeSensitivity + 0.008 is
    above zero.  The call returns, or raises the [OverflowError] of a
    distance. *)
Theorem held_pose_sends_no_key (self : Translator) (coords : list coord) (os : OS) :
  List.length coords = 21%nat ->
  (is_fist coords = Ok true ->
   finite_coord (pt coords 0) = true
   /\ (0 <? shake_sensitivity self + 0.008) = true) ->
  translate_landmarks_to_keyboard_action self coords coords os = (Ok tt, os)
  \/ translate_landmarks_to_keyboard_action self coords coords os
     = (Raise OverflowError, os).
Proof.
  intros Hc H. rewrite (keyboard_outcome_run _ _ _ _ Hc Hc).
  destruct (keyboard_outcome_same self coords) as [-> | ->].
  - intros Hf. apply H. now rewrite (is_fist_21 _ Hc), Hf.
  - left. simpl. now rewrite log_nil.
  - now right.
Qed.

Lemma held_pose_sends_no_key_witness :
  translate_landmarks_to_keyboard_action gui_translator fist_pinch fist_pinch desktop
  = (Ok tt, desktop).
Proof.
  destruct (held_pose_sends_no_key gui_translator fist_pinch desktop eq_refl
              (fun _ => conj eq_refl eq_refl)) as [H|H].
  - exact H.
  - vm_compute in H. discriminate H.
Defined.

Lemma mouse_outcome_same (self : Translator) (cursor : float * float)
    (coords : list coord) :
  finite_coord (pt coords 0) = true ->
  (0 <? shake_sensitivity self) = true ->
  mouse_outcome self cursor coords (pt coords 0) = Ok []
  \/ mouse_outcome self cursor coords (pt coords 0) = Raise OverflowError.
Proof.
  intros Hfin Hs. unfold mouse_outcome.
  repeat (match goal with
          | |- context [get_3d_distance ?a ?b] =>
              let E := fresh "E" in
              destruct (get_3d_distance a b) eqn:E; simpl;
              [|right; now rewrite (get_3d_distance_raises_OverflowError _ _ _ E)]
          end).
  left. unfold mouse_calls. now rewrite (is_shaking_same _ _ Hfin), Hs.
Qed.

(** X4: the mouse channel on twice the same skeleton of 21 points, with a
    finite palm and a shake sensitivity above zero, calls nothing, even
    while a finger is held at the thumb; it returns, or raises the
    [OverflowError] of a distance. *)
Theorem held_pose_moves_no_mouse (self : Translator) (coords : list coord) (os : OS) :
  List.length coords = 21%nat ->
  finite_coord (pt coords 0) = true ->
  (0 <? shake_sensitivity self) = true ->
  translate_landmarks_to_mouse_action self coords coords os = (Ok tt, os)
  \/ translate_landmarks_to_mouse_action self coords coords os
     = (Raise OverflowError, os).
Proof.
  intros Hc Hfin Hs.
  assert (Hne : coords <> []) by (intros ->; discriminate).
  rewrite (mouse_outcome_run _ _ _ _ Hc Hne).
  destruct (mouse_outcome_same self (position os) coords Hfin Hs) as [-> | ->].
  - left. simpl. now rewrite log_nil.
  - now right.
Qed.

Lemma held_pose_moves_no_mouse_witness :
  translate_landmarks_to_mouse_action gui_translator pinch pinch desktop
  = (Ok tt, desktop).
Proof.
  destruct (held_pose_moves_no_mouse gui_translator pinch desktop eq_refl
              eq_refl eq_refl) as [H|H].
  - exact H.
  - vm_compute in H. discriminate H.
Defined.

(** ** What a channel never does *)

Lemma adds_only_ret (kind : call -> bool) (n : nat) : adds_only kind n (ret tt).
Proof.
  intros os. exists (Ok tt), []. rewrite log_nil. repeat split. simpl. lia.
Qed.

Lemma adds_only_emit (kind : call -> bool) (n : nat) (c : call) :
  kind c = true -> adds_only kind (S n) (emit c).
Proof.
  intros H os. exists (Ok tt), [c]. unfold emit, log. simpl.
  rewrite H. repeat split. lia.
Qed.

Lemma adds_only_lift {A : Type} (kind : call -> bool) (n : nat) (r : result A)
    (k : A -> M unit) :
  (forall a, adds_only kind n (k a)) -> adds_only kind n (bind (lift r) k).
Proof.
  intros H os. unfold bind, lift. destruct r as [a|e]; [apply H|].
  exists (Raise e), []. rewrite log_nil. repeat split. simpl. lia.
Qed.

Lemma adds_only_bind (kind : call -> bool) (n1 n2 : nat) (m : M unit) (k : M unit) :
  adds_only kind n1 m -> adds_only kind n2 k ->
  adds_only kind (n1 + n2) (bind m (fun _ => k)).
Proof.
  intros Hm Hk os. unfold bind.
  destruct (Hm os) as (r & new & -> & K & L).
  destruct r as [[]|e].
  - destruct (Hk (log os new)) as (r' & more & -> & K' & L').
    exists r', (new ++ more). rewrite log_log, forallb_app, K, K', length_app.
    repeat split. lia.
  - exists (Raise e), new. repeat split; auto. lia.
Qed.

Lemma adds_only_more (kind : call -> bool) (n n' : nat) (m : M unit) :
  (n <= n')%nat -> adds_only kind n m -> adds_only kind n' m.
Proof.
  intros Hn H os. destruct (H os) as (r & new & E & K & L).
  exists r, new. repeat split; auto. lia.
Qed.

Lemma adds_only_get_position (kind : call -> bool) (n : nat)
    (k : float * float -> M unit) :
  (forall cursor, adds_only kind n (k cursor)) ->
  adds_only kind n (bind get_position k).
Proof.
  intros H os. unfold bind, get_position. apply H.
Qed.

Lemma release_keys_adds_only (self : Translator) (coords past_coords : list coord)
    (d past_d : distances) :
  adds_only is_keyboard_call 1 (release_keys self coords past_coords d past_d).
Proof.
  unfold release_keys.
  repeat (match goal with
          | |- context [if released ?s ?a ?b then _ else _] =>
              destruct (released s a b); [now apply adds_only_emit|]
          end).
  apply adds_only_lift. intros [|]; [now apply adds_only_emit|apply adds_only_ret].
Qed.

Lemma keyboard_adds_only (self : Translator)
    (coords past_coords : list coord) :
  adds_only is_keyboard_call 2
    (translate_landmarks_to_keyboard_action self coords past_coords).
Proof.
  unfold translate_landmarks_to_keyboard_action.
  destruct (Nat.eqb _ 0); [apply adds_only_ret|].
  apply adds_only_lift; intros hand_coords.
  apply adds_only_lift; intros past_hand_coords.
  apply adds_only_lift; intros d.
  apply adds_only_lift; intros past_d.
  apply adds_only_lift; intros fist_now.
  pose proof (release_keys_adds_only self coords past_coords d past_d) as R.
  destruct fist_now; [|apply (adds_only_more _ 1); [lia|exact R]].
  apply adds_only_lift. intros past_fist.
  apply (adds_only_bind _ 1 1).
  - destruct (negb past_fist); [now apply adds_only_emit|apply adds_only_ret].
  - destruct (negb (is_shaking _ _ _)); [|exact R].
    unfold navigate.
    repeat (match goal with
            | |- context [if ?b then emit _ else _] =>
                destruct b; [now apply adds_only_emit|]
            end).
    exact R.
Qed.

(** X5: whatever the two landmark lists are, the keyboard channel makes at
    most two calls, all of them to the keyboard, after the calls made
    before, and does not touch the cursor position. *)
Theorem keyboard_channel_adds_keyboard_calls (self : Translator)
    (coords past_coords : list coord) (os : OS) :
  exists r new,
    translate_landmarks_to_keyboard_action self coords past_coords os
    = (r, {| position := position os; calls := calls os ++ new |})
    /\ forallb is_keyboard_call new = true
    /\ (List.length new <= 2)%nat.
Proof.
  destruct (keyboard_adds_only self coords past_coords os) as (r & new & E & K & L).
  exists r, new. split; [exact E|]. split; [exact K|exact L].
Qed.

Lemma mouse_adds_only (self : Translator)
    (coords past_coords : list coord) :
  adds_only is_mouse_call 1
    (translate_landmarks_to_mouse_action self coords past_coords).
Proof.
  unfold translate_landmarks_to_mouse_action.
  destruct (Nat.eqb _ 0); [apply adds_only_ret|].
  apply adds_only_get_position. intros cursor.
  apply adds_only_lift; intros hand_coords.
  apply adds_only_lift; intros past_palm_coords.
  apply adds_only_lift; intros index_d.
  apply adds_only_lift; intros middle_d.
  apply adds_only_lift; intros ring_d.
  destruct (is_shaking _ _ _); [apply adds_only_ret|].
  apply adds_only_lift. intros [|]; [apply adds_only_ret|].
  destruct (_ <=? _); [now apply adds_only_emit|].
  destruct (_ <=? _); [now apply adds_only_emit|].
  destruct (_ <=? _); [|now apply adds_only_emit].
  apply adds_only_lift. intros n. now apply adds_only_emit.
Qed.

(** X6: whatever the two landmark lists are, the mouse channel makes at
    most one call, to the mouse, after the calls made before. *)
Theorem mouse_channel_adds_one_mouse_call (self : Translator)
    (coords past_coords : list coord) (os : OS) :
  exists r new,
    translate_landmarks_to_mouse_action self coords past_coords os
    = (r, {| position := position os; calls := calls os ++ new |})
    /\ forallb is_mouse_call new = true
    /\ (List.length new <= 1)%nat.
Proof.
  destruct (mouse_adds_only self coords past_coords os) as (r & new & E & K & L).
  exists r, new. split; [exact E|]. split; [exact K|exact L].
Qed.

(** ** The landmarks that are read *)

Lemma keyboard_outcome_ext (self : Translator)
    (coords coords' past_coords past_coords' : list coord) :
  (forall i, In i used_landmarks -> pt coords' i = pt coords i) ->
  (forall i, In i used_landmarks -> pt past_coords' i = pt past_coords i) ->
  keyboard_outcome self coords' past_coords' = keyboard_outcome self coords past_coords.
Proof.
  intros Hc Hp.
  unfold keyboard_outcome, keyboard_calls, named_points, fist.
  rewrite !Hc by (unfold used_landmarks; simpl; tauto).
  rewrite !Hp by (unfold used_landmarks; simpl; tauto).
  reflexivity.
Qed.

Lemma mouse_outcome_ext (self : Translator) (cursor : float * float)
    (coords coords' : list coord) (past_palm : coord) :
  (forall i, In i used_landmarks -> pt coords' i = pt coords i) ->
  mouse_outcome self cursor coords' past_palm
  = mouse_outcome self cursor coords past_palm.
Proof.
  intros Hc. unfold mouse_outcome, mouse_calls, fist.
  rewrite !Hc by (unfold used_landmarks; simpl; tauto).
  reflexivity.
Qed.

(** X7: on skeletons of 21 points both channels read the landmarks 0, 4,
    6, 8, 10, 12, 14, 16, 18 and 20 only: two calls whose current
    skeletons agree on these ten, and whose previous skeletons do, return
    the same result and make the same calls. *)
Theorem translators_read_ten_landmarks (self : Translator)
    (coords coords' past_coords past_coords' : list coord) (os : OS) :
  List.length coords = 21%nat -> List.length coords' = 21%nat ->
  List.length past_coords = 21%nat -> List.length past_coords' = 21%nat ->
  (forall i, In i used_landmarks -> pt coords' i = pt coords i) ->
  (forall i, In i used_landmarks -> pt past_coords' i = pt past_coords i) ->
  translate_landmarks_to_keyboard_action self coords' past_coords' os
  = translate_landmarks_to_keyboard_action self coords past_coords os
  /\ translate_landmarks_to_mouse_action self coords' past_coords' os
     = translate_landmarks_to_mouse_action self coords past_coords os.
Proof.
  intros Lc Lc' Lp Lp' Hc Hp. split.
  - rewrite !keyboard_outcome_run by assumption.
    now rewrite (keyboard_outcome_ext self coords coords' past_coords past_coords').
  - assert (Np : past_coords <> []) by (intros ->; discriminate).
    assert (Np' : past_coords' <> []) by (intros ->; discriminate).
    rewrite !mouse_outcome_run by assumption.
    rewrite (Hp 0%nat) by (unfold used_landmarks; simpl; tauto).
    now rewrite (mouse_outcome_ext self _ coords coords').
Qed.

(** Landmark 1 takes no part. *)
Lemma translators_read_ten_landmarks_witness :
  translate_landmarks_to_keyboard_action gui_translator
    (set_landmark 1 (at_ 0.1 0.2 0.3) fist_apart) fist_pinch desktop
  = translate_landmarks_to_keyboard_action gui_translator fist_apart fist_pinch
      desktop.
Proof.
  apply (translators_read_ten_landmarks gui_translator fist_apart
           (set_landmark 1 (at_ 0.1 0.2 0.3) fist_apart) fist_pinch fist_pinch
           desktop eq_refl eq_refl eq_refl eq_refl).
  - intros i Hi. unfold used_landmarks in Hi. simpl in Hi.
    repeat (destruct Hi as [<-|Hi]; [reflexivity|]). contradiction.
  - reflexivity.
Defined.

(** ** The release of alt+tab that is lost *)

(** X8: when a fist opens in the call in which a finger leaves the thumb,
    that call sends the finger key and does not release "alt+tab", and the
    call after it, whatever its current skeleton, does not release it
    either: the key stays pressed. *)
Theorem release_lost_to_a_finger_key (self : Translator)
    (before now : list coord) (d past_d : distances) (os : OS) :
  List.length before = 21%nat -> List.length now = 21%nat ->
  thumb_distances (named_points now) = Ok d ->
  thumb_distances (named_points before) = Ok past_d ->
  is_fist before = Ok true -> is_fist now = Ok false ->
  released self (index_thumb d) (index_thumb past_d)
  || released self (middle_thumb d) (middle_thumb past_d)
  || released self (ring_thumb d) (ring_thumb past_d)
  || released self (pinkie_thumb d) (pinkie_thumb past_d) = true ->
  exists key,
    translate_landmarks_to_keyboard_action self now before os
    = (Ok tt, log os [keyboard_send key])
    /\ In key finger_keys
    /\ forall next : list coord,
         List.length next = 21%nat ->
         exists r new,
           translate_landmarks_to_keyboard_action self next now
             (log os [keyboard_send key])
           = (r, log os (keyboard_send key :: new))
           /\ forallb (fun c => negb (is_release "alt+tab" c)) new = true.
Proof.
  intros Lb Ln Hd Hpd Fb Fn Hrel.
  rewrite (is_fist_21 _ Lb) in Fb. injection Fb as Fb.
  rewrite (is_fist_21 _ Ln) in Fn. injection Fn as Fn.
  assert (K : exists key, keyboard_calls self now before d past_d = [keyboard_send key]
                          /\ In key finger_keys).
  { unfold keyboard_calls, release_calls. rewrite Fn. unfold finger_keys.
    repeat (match goal with
            | |- context [if released ?s ?a ?b then _ else _] =>
                destruct (released s a b);
                [eexists; split; [reflexivity|simpl; tauto]|]
            end).
    discriminate Hrel. }
  destruct K as (key & K & Hin). exists key.
  split; [|split; [exact Hin|]].
  - rewrite (keyboard_run _ _ _ _ _ _ Ln Lb Hd Hpd). now rewrite K.
  - intros next Lx. rewrite (keyboard_outcome_run _ _ _ _ Lx Ln).
    unfold keyboard_outcome. rewrite Hd.
    destruct (thumb_distances (named_points next)) as [dx|e]; simpl.
    + exists (Ok tt), (keyboard_calls self next now dx d).
      split; [now rewrite log_log|].
      unfold keyboard_calls, navigate_calls, release_calls. rewrite Fn.
      cbn [negb andb].
      destruct (fist next); cbn [app negb andb];
        repeat (match goal with
                | |- context [released ?s ?a ?b] => destruct (released s a b)
                | |- context [is_shaking ?a ?b ?c] => destruct (is_shaking a b c)
                | |- context [PyFloat.gt ?a ?b] => destruct (PyFloat.gt a b)
                | |- context [?a <=? ?b] => destruct (a <=? b)
                end); reflexivity.
    + exists (Raise e), []. split; reflexivity.
Qed.

(** The fist [fist_pinch] opens into [pinch_released]: "space" is sent
    and "alt+tab" is not released. *)
Lemma release_lost_to_a_finger_key_witness :
  exists key,
    translate_landmarks_to_keyboard_action gui_translator pinch_released fist_pinch
      desktop
    = (Ok tt, log desktop [keyboard_send key])
    /\ In key finger_keys.
Proof.
  destruct (release_lost_to_a_finger_key gui_translator fist_pinch pinch_released
              (distances_of pinch_released) (distances_of fist_pinch) desktop
              eq_refl eq_refl eq_refl eq_refl eq_refl eq_refl eq_refl)
    as (key & H1 & H2 & _).
  exists key. split; [exact H1|exact H2].
Defined.


(** * The frame source *)

(** ** Dicts as objects *)

Lemma length_write (h : list hands_dict) (a : nat) (d : hands_dict) :
  List.length (write h a d) = List.length h.
Proof.
  revert a. induction h as [|first rest IH]; intros [|a]; simpl; auto.
Qed.

Lemma read_write_same (h : list hands_dict) (a : nat) (d : hands_dict) :
  (a < List.length h)%nat -> read (write h a d) a = d.
Proof.
  unfold read. revert a.
  induction h as [|first rest IH]; intros [|a]; simpl; intros H; try lia; auto.
  apply IH. lia.
Qed.

Lemma read_write_other (h : list hands_dict) (a b : nat) (d : hands_dict) :
  a <> b -> read (write h a d) b = read h b.
Proof.
  unfold read. revert a b.
  induction h as [|first rest IH]; intros [|a] [|b]; simpl; intros H;
    try congruence; auto.
Qed.

Lemma write_write (h : list hands_dict) (a : nat) (d d' : hands_dict) :
  write (write h a d) a d' = write h a d'.
Proof.
  revert a. induction h as [|first rest IH]; intros [|a]; simpl; auto.
  now rewrite IH.
Qed.

Lemma write_read (h : list hands_dict) (a : nat) :
  write h a (read h a) = h.
Proof.
  unfold read. revert a.
  induction h as [|first rest IH]; intros [|a]; simpl; auto.
  now rewrite IH.
Qed.

Lemma read_app_old (h : list hands_dict) (a : nat) (d : hands_dict) :
  (a < List.length h)%nat -> read (h ++ [d]) a = read h a.
Proof.
  intros H. unfold read. now rewrite app_nth1.
Qed.

Lemma read_app_new (h : list hands_dict) (d : hands_dict) :
  read (h ++ [d]) (List.length h) = d.
Proof.
  unfold read. rewrite app_nth2 by lia. now rewrite Nat.sub_diag.
Qed.

(** ** The side of a hand *)

Lemma is_right_hand_in_bounds (mp_landmarks : list coord) :
  (18 <= List.length mp_landmarks)%nat ->
  is_right_hand mp_landmarks
  = Ok (x (pt mp_landmarks 2) <? x (pt mp_landmarks 17)).
Proof.
  intros H. unfold is_right_hand. now rewrite !index_in_bounds by lia.
Qed.

Lemma is_right_hand_Ok (mp_landmarks : list coord) (b : bool) :
  is_right_hand mp_landmarks = Ok b ->
  b = (x (pt mp_landmarks 2) <? x (pt mp_landmarks 17)).
Proof.
  unfold is_right_hand, index, pt.
  destruct (nth_error mp_landmarks 2) as [c2|] eqn:E2; [|discriminate].
  destruct (nth_error mp_landmarks 17) as [c17|] eqn:E17; [|discriminate].
  simpl. intros [= <-].
  now rewrite (nth_error_nth _ _ origin E2), (nth_error_nth _ _ origin E17).
Qed.

Lemma ltb_asym (a b : float) : (a <? b) = true -> (b <? a) = false.
Proof.
  rewrite !FloatAxioms.ltb_spec. unfold SFltb.
  rewrite (FloatFacts.SFcompare_antisym (Prim2SF a) (Prim2SF b)).
  destruct (SFcompare (Prim2SF a) (Prim2SF b)) as [[ | | ]|]; simpl; congruence.
Qed.

(** X9: [is_right_hand] reads the landmarks 2 and 17 only: it returns on
    every list of 18 points or more and raises [IndexError] on a shorter
    one.  A hand is right when the abscissa of landmark 2 is strictly below
    that of landmark 17, so that two hands with these two abscissas
    exchanged are never both right, and a hand on which they are equal is
    left. *)
Theorem is_right_hand_reads_two_landmarks (mp_landmarks : list coord) :
  ((18 <= List.length mp_landmarks)%nat ->
   is_right_hand mp_landmarks
   = Ok (x (pt mp_landmarks 2) <? x (pt mp_landmarks 17)))
  /\ ((List.length mp_landmarks < 18)%nat ->
      is_right_hand mp_landmarks = Raise IndexError)
  /\ (forall other : list coord,
        x (pt other 2) = x (pt mp_landmarks 17) ->
        x (pt other 17) = x (pt mp_landmarks 2) ->
        is_right_hand mp_landmarks = Ok true -> is_right_hand other <> Ok true)
  /\ (x (pt mp_landmarks 2) = x (pt mp_landmarks 17) ->
      is_right_hand mp_landmarks <> Ok true).
Proof.
  repeat split.
  - apply is_right_hand_in_bounds.
  - intros H. unfold is_right_hand.
    rewrite (index_out_of_bounds mp_landmarks 17) by lia.
    destruct (index mp_landmarks 2) as [c|e] eqn:E; simpl; [reflexivity|].
    now rewrite (index_raises_IndexError _ _ _ E).
  - intros other H2 H17 Hr Ho.
    apply is_right_hand_Ok in Hr, Ho. rewrite H2, H17 in Ho.
    symmetry in Hr. apply ltb_asym in Hr. congruence.
  - intros E Hr. apply is_right_hand_Ok in Hr. rewrite E in Hr.
    symmetry in Hr. pose proof (ltb_asym _ _ Hr). congruence.
Qed.

Lemma is_right_hand_reads_two_landmarks_witness :
  is_right_hand (firstn 18 fist_pinch) = Ok false
  /\ is_right_hand (firstn 17 fist_pinch) = Raise IndexError.
Proof.
  split.
  - rewrite (proj1 (is_right_hand_reads_two_landmarks (firstn 18 fist_pinch)))
      by (vm_compute; lia).
    reflexivity.
  - apply (proj1 (proj2 (is_right_hand_reads_two_landmarks (firstn 17 fist_pinch)))).
    vm_compute. lia.
Defined.

(** ** One call of [get_image_data] *)

Lemma store_hands_Ok (landmarkList : list (list coord)) :
  forall (self self' : HandTracker) (u : unit),
    store_hands self landmarkList = (Ok u, self') ->
    self' = {| heap := write (heap self) (current_hand_landmarks self)
                         (stored (read (heap self) (current_hand_landmarks self))
                                 landmarkList);
               current_hand_landmarks := current_hand_landmarks self;
               past_hand_landmarks := past_hand_landmarks self |}.
Proof.
  induction landmarkList as [|landmarks rest IH]; intros self self' u; simpl.
  - intros [= _ <-]. rewrite write_read. now destruct self.
  - destruct (is_right_hand landmarks) as [b|e] eqn:E; [|discriminate].
    apply is_right_hand_Ok in E. subst b. intros H.
    apply IH in H. subst self'. simpl. rewrite write_write. f_equal.
    destruct (Nat.lt_ge_cases (current_hand_landmarks self) (List.length (heap self)))
      as [L|L].
    + now rewrite read_write_same.
    + assert (W : forall h a d, (List.length h <= a)%nat -> write h a d = h).
      { induction h as [|first h' IHh]; intros [|a] d Ha; simpl in *; auto;
          try lia. now rewrite IHh by lia. }
      now rewrite !W by exact L.
Qed.

Lemma store_hands_in_bounds (landmarkList : list (list coord)) :
  forall self : HandTracker,
    Forall (fun l => (18 <= List.length l)%nat) landmarkList ->
    exists self', store_hands self landmarkList = (Ok tt, self').
Proof.
  induction landmarkList as [|landmarks rest IH]; intros self H; simpl.
  - eauto.
  - inversion H as [|? ? H1 H2]; subst.
    rewrite (is_right_hand_in_bounds _ H1). now apply IH.
Qed.

Lemma stored_nil_or_cons (d : hands_dict) (hands : list (list coord)) :
  hands = [] -> stored d hands = d.
Proof.
  now intros ->.
Qed.

(** What a call that returns a frame does, from a state in which the
    invariant holds. *)
Lemma get_image_data_frame (self self' : HandTracker) (cam : camera)
    (ok : bool) (current past : nat) :
  tracker_inv self ->
  get_image_data self cam = (Ok (frame_data ok current past), self') ->
  isOpened cam = true /\ success cam = true
  /\ ok = true /\ current = empty_landmarks /\ past = List.length (heap self)
  /\ tracker_inv self'
  /\ read (heap self') current
     = stored (read (heap self) empty_landmarks) (multi_hand_landmarks cam)
  /\ read (heap self') past = read (heap self) empty_landmarks
  /\ (forall a, a <> empty_landmarks -> (a < List.length (heap self))%nat ->
        read (heap self') a = read (heap self) a).
Proof.
  intros (Hc & H0 & Hp & Hsame) H. unfold get_image_data in H.
  destruct (isOpened cam); [|discriminate].
  destruct (success cam); [|discriminate].
  split; [reflexivity|]. split; [reflexivity|].
  unfold copy in H. cbn [current_hand_landmarks past_hand_landmarks heap] in H.
  set (n := List.length (heap self)) in *.
  set (h1 := heap self ++ [read (heap self) (past_hand_landmarks self)]) in *.
  assert (L1 : List.length h1 = S n) by (unfold h1; rewrite length_app; simpl; lia).
  destruct (multi_hand_landmarks cam) as [|first rest] eqn:Eh.
  - injection H as <- <- <- <-. unfold set_past_hand_landmarks, tracker_inv.
    cbn [current_hand_landmarks past_hand_landmarks heap]. rewrite Hc, L1.
    unfold empty_landmarks in *. rewrite Hc in Hsame.
    repeat split; try lia.
    + unfold h1. now rewrite read_app_old.
    + unfold h1. rewrite read_app_new. exact Hsame.
    + intros a Ha La. unfold h1. now rewrite read_app_old.
  - remember (first :: rest) as hands eqn:Eh' in *. clear Eh' first rest.
    destruct (store_hands _ hands) as [[u|e] self2] eqn:Es; [|discriminate].
    apply store_hands_Ok in Es. subst self2.
    cbn [current_hand_landmarks past_hand_landmarks heap] in *.
    injection H as <- <- <- <-.
    unfold set_past_hand_landmarks, tracker_inv.
    cbn [current_hand_landmarks past_hand_landmarks heap].
    rewrite Hc in *. unfold empty_landmarks in *.
    set (d := stored (read h1 0) hands).
    assert (R0 : read h1 0 = read (heap self) 0)
      by (unfold h1; now rewrite read_app_old).
    assert (Lw : List.length (write h1 0 d) = S n) by now rewrite length_write.
    rewrite length_app, Lw. simpl List.length.
    repeat split; try lia.
    + rewrite <- Lw at 1. rewrite read_app_new.
      rewrite read_app_old by lia. now rewrite read_write_same by lia.
    + rewrite read_app_old by lia. rewrite read_write_same by lia.
      unfold d. now rewrite R0.
    + rewrite read_app_old by lia. rewrite read_write_other by lia.
      unfold h1. rewrite read_app_new. exact Hsame.
    + intros a Ha La. rewrite read_app_old by lia.
      rewrite read_write_other by lia. unfold h1. now rewrite read_app_old.
Qed.

Lemma get_image_data_no_frame (self : HandTracker) (cam : camera) :
  isOpened cam && success cam = false ->
  get_image_data self cam = (Ok no_frame, self).
Proof.
  unfold get_image_data. now destruct (isOpened cam), (success cam).
Qed.

Lemma get_image_data_inv (self self' : HandTracker) (cam : camera) (d : image_data) :
  tracker_inv self -> get_image_data self cam = (Ok d, self') -> tracker_inv self'.
Proof.
  intros Hinv H. destruct d as [ok current past|].
  - now apply (get_image_data_frame _ _ _ _ _ _ Hinv) in H.
  - unfold get_image_data in H.
    destruct (isOpened cam); [|now injection H as <-].
    destruct (success cam); [|now injection H as <-].
    unfold copy in H.
    destruct (multi_hand_landmarks cam); [discriminate|].
    destruct (store_hands _ _) as [[u|e] self2]; discriminate.
Qed.

Lemma new_tracker_inv : tracker_inv new_tracker.
Proof.
  unfold tracker_inv, new_tracker, empty_landmarks. simpl. repeat split; lia.
Qed.

Lemma track_inv (cams : list camera) :
  forall self self' : HandTracker,
    tracker_inv self -> track self cams = Ok self' -> tracker_inv self'.
Proof.
  induction cams as [|cam rest IH]; intros self self' Hinv; simpl.
  - now intros [= <-].
  - destruct (get_image_data self cam) as [[d|e] self1] eqn:E; [|discriminate].
    apply IH. now apply (get_image_data_inv self self1 cam d).
Qed.

(** ** The dicts a frame is returned in *)

(** A call that returns a frame, from a state in which the invariant
    holds. *)
Lemma get_image_data_reached (self : HandTracker) (cam : camera) :
  tracker_inv self ->
  isOpened cam = true -> success cam = true ->
  Forall (fun l => (18 <= List.length l)%nat) (multi_hand_landmarks cam) ->
  exists self',
    get_image_data self cam
    = (Ok (frame_data true empty_landmarks (List.length (heap self))), self')
    /\ current_hand_landmarks self = empty_landmarks
    /\ current_hand_landmarks self' = empty_landmarks
    /\ read (heap self') empty_landmarks
       = stored (read (heap self) empty_landmarks) (multi_hand_landmarks cam)
    /\ read (heap self') (List.length (heap self))
       = read (heap self) empty_landmarks
    /\ (forall a, a <> empty_landmarks -> (a < List.length (heap self))%nat ->
          read (heap self') a = read (heap self) a)
    /\ read (heap self') (past_hand_landmarks self')
       = read (heap self') (current_hand_landmarks self').
Proof.
  intros Hinv Ho Hs Hh.
  assert (E : exists d self', get_image_data self cam = (Ok d, self')
                              /\ d <> no_frame).
  { destruct (store_hands_in_bounds (multi_hand_landmarks cam)
                {| heap := heap self ++ [read (heap self) (past_hand_landmarks self)];
                   current_hand_landmarks := current_hand_landmarks self;
                   past_hand_landmarks := past_hand_landmarks self |} Hh)
      as [self2 Es].
    unfold get_image_data. rewrite Ho, Hs. unfold copy.
    revert Es. destruct (multi_hand_landmarks cam) as [|first rest]; intros Es.
    - eexists _, _. split; [reflexivity|discriminate].
    - rewrite Es. eexists _, _. split; [reflexivity|discriminate]. }
  destruct E as (d & self' & E & Hd).
  destruct d as [ok current past|]; [|congruence].
  destruct (get_image_data_frame _ _ _ _ _ _ Hinv E)
    as (_ & _ & -> & -> & -> & Hinv' & H1 & H2 & H3).
  exists self'. split; [exact E|].
  destruct Hinv as (Hc & _). destruct Hinv' as (Hc' & _ & _ & Hsame').
  repeat split; auto.
Qed.



(** X11: the attribute [current_hand_landmarks] is never bound anew: in
    every state the tracker reaches it is the module's dict
    [empty_landmarks], and the past dict has the same items as it. *)
Theorem current_dict_is_empty_landmarks (cams : list camera) (self : HandTracker) :
  track new_tracker cams = Ok self ->
  current_hand_landmarks self = empty_landmarks
  /\ read (heap self) (past_hand_landmarks self)
     = read (heap self) empty_landmarks.
Proof.
  intros H. destruct (track_inv _ _ _ new_tracker_inv H) as (Hc & _ & _ & Hs).
  split; [exact Hc|]. now rewrite Hs, Hc.
Qed.

Lemma current_dict_is_empty_landmarks_witness :
  current_hand_landmarks (tracker_after [frame [right_fist]; frame []])
  = empty_landmarks
  /\ read (heap (tracker_after [frame [right_fist]; frame []]))
       (past_hand_landmarks (tracker_after [frame [right_fist]; frame []]))
     = read (heap (tracker_after [frame [right_fist]; frame []])) empty_landmarks.
Proof.
  apply (current_dict_is_empty_landmarks [frame [right_fist]; frame []]).
  reflexivity.
Defined.

Lemma stored_keeps_hands (hands : list (list coord)) :
  forall (d : hands_dict) (key : side),
    is_not_empty_landmark_list (getitem d key) = true ->
    is_not_empty_landmark_list (getitem (stored d hands) key) = true.
Proof.
  induction hands as [|landmarks rest IH]; intros d key H; simpl; [exact H|].
  apply IH. destruct (_ <? _), key; simpl; auto.
Qed.

Lemma track_keeps_hands (cams : list camera) :
  forall (self self' : HandTracker) (key : side),
    tracker_inv self -> track self cams = Ok self' ->
    is_not_empty_landmark_list (getitem (read (heap self) empty_landmarks) key) = true ->
    is_not_empty_landmark_list (getitem (read (heap self') empty_landmarks) key) = true.
Proof.
  induction cams as [|cam rest IH]; intros self self' key Hinv; simpl.
  - now intros [= <-].
  - destruct (get_image_data self cam) as [[d|e] self1] eqn:E; [|discriminate].
    intros Ht Hk.
    apply (IH self1 self' key (get_image_data_inv _ _ _ _ Hinv E) Ht).
    destruct d as [ok current past|].
    + destruct (get_image_data_frame _ _ _ _ _ _ Hinv E)
        as (_ & _ & _ & -> & _ & _ & H1 & _).
      rewrite H1. now apply stored_keeps_hands.
    + unfold get_image_data in E.
      destruct (isOpened cam); [|now injection E as <-].
      destruct (success cam); [|now injection E as <-].
      unfold copy in E.
      destruct (multi_hand_landmarks cam); [discriminate|].
      destruct (store_hands _ _) as [[u|e] self2]; discriminate.
Qed.

(** X12: a slot of the current dict is never emptied: once a hand of a
    side is held, one is held after every later call, also for frames
    without this hand, without any hand, or without a capture. *)
Theorem detected_hand_is_kept (cams more : list camera)
    (self self' : HandTracker) (key : side) :
  track new_tracker cams = Ok self ->
  track self more = Ok self' ->
  is_not_empty_landmark_list
    (getitem (read (heap self) (current_hand_landmarks self)) key) = true ->
  is_not_empty_landmark_list
    (getitem (read (heap self') (current_hand_landmarks self')) key) = true.
Proof.
  intros H1 H2.
  pose proof (track_inv _ _ _ new_tracker_inv H1) as Hinv.
  pose proof (track_inv _ _ _ Hinv H2) as Hinv'.
  destruct Hinv as (Hc & Hrest). destruct Hinv' as (Hc' & _).
  rewrite Hc, Hc'. apply (track_keeps_hands more); [|exact H2].
  split; assumption.
Qed.

(** A right hand seen once is still held after a frame without hands, a
    tick without capture and a frame with a left hand only. *)
Lemma detected_hand_is_kept_witness :
  is_not_empty_landmark_list
    (getitem
       (read (heap (tracker_after [frame [right_fist]; frame []; no_capture;
                                   frame [left_pinch]]))
             (current_hand_landmarks
                (tracker_after [frame [right_fist]; frame []; no_capture;
                                frame [left_pinch]])))
       Right)
  = true.
Proof.
  apply (detected_hand_is_kept [frame [right_fist]]
           [frame []; no_capture; frame [left_pinch]]
           (tracker_after [frame [right_fist]])
           (tracker_after [frame [right_fist]; frame []; no_capture;
                           frame [left_pinch]])
           Right); reflexivity.
Defined.





(** * The loop of the GUI *)

Lemma update_eta (self : GUI) :
  {| hand_tracker := hand_tracker self; translator := translator self;
     screen := screen self; scheduled := scheduled self |} = self.
Proof.
  now destruct self.
Qed.

(** X14: on a tick without a capture (the source closed, or the read
    failed) [get_image_data] returns the pair [(False, None)] and the
    unpacking in [update] raises [ValueError]: the tracker and the screen
    are as before, [window.after] is not called, and the loop runs none of
    the later ticks. *)
Theorem update_without_capture_raises (self : GUI) (cam : camera)
    (later : list camera) :
  isOpened cam && success cam = false ->
  get_image_data (hand_tracker self) cam = (Ok no_frame, hand_tracker self)
  /\ update self cam = (Raise ValueError, self)
  /\ mainloop self (cam :: later) = self.
Proof.
  intros H. pose proof (get_image_data_no_frame (hand_tracker self) cam H) as E.
  split; [exact E|]. unfold mainloop, update. rewrite E, update_eta. now split.
Qed.

Lemma update_without_capture_raises_witness :
  update {| hand_tracker := new_tracker; translator := gui_translator;
            screen := desktop; scheduled := 0 |} no_capture
  = (Raise ValueError,
     {| hand_tracker := new_tracker; translator := gui_translator;
        screen := desktop; scheduled := 0 |}).
Proof.
  apply (update_without_capture_raises _ no_capture []). reflexivity.
Defined.

Lemma translate_hand_adds_only (kind : call -> bool) (n : nat)
    (method : list coord -> list coord -> M unit)
    (hand_landmarks past_hand_landmarks : hands_dict) (key : side) :
  (forall coords past_coords, adds_only kind n (method coords past_coords)) ->
  adds_only kind n (translate_hand method hand_landmarks past_hand_landmarks key).
Proof.
  intros H. unfold translate_hand.
  destruct (_ && _); [apply H|apply adds_only_ret].
Qed.

(** X15: whatever the camera gives, one tick adds to the calls made before
    at most one call to the mouse followed by at most two calls to the
    keyboard, leaves the translator as it is, and calls [window.after],
    once, exactly when it raises nothing. *)
Theorem update_adds_mouse_then_keyboard_calls (self : GUI) (cam : camera) :
  exists r self' mouse_new keyboard_new,
    update self cam = (r, self')
    /\ screen self' = log (screen self) (mouse_new ++ keyboard_new)
    /\ forallb is_mouse_call mouse_new = true
    /\ (List.length mouse_new <= 1)%nat
    /\ forallb is_keyboard_call keyboard_new = true
    /\ (List.length keyboard_new <= 2)%nat
    /\ translator self' = translator self
    /\ scheduled self'
       = match r with Ok _ => S (scheduled self) | Raise _ => scheduled self end.
Proof.
  unfold update.
  destruct (get_image_data (hand_tracker self) cam) as [[[ok current past| ]|e] tracker].
  - destruct ok.
    + unfold bind.
      set (m := translate_hand (translate_landmarks_to_mouse_action _) _ _ Left).
      set (k := translate_hand (translate_landmarks_to_keyboard_action _) _ _ Right).
      assert (Hm : adds_only is_mouse_call 1 m)
        by (apply translate_hand_adds_only;
            intros; apply mouse_adds_only).
      assert (Hk : adds_only is_keyboard_call 2 k)
        by (apply translate_hand_adds_only;
            intros; apply keyboard_adds_only).
      destruct (Hm (screen self)) as (r1 & new1 & -> & K1 & L1).
      destruct r1 as [[]|e1].
      * destruct (Hk (log (screen self) new1)) as (r2 & new2 & -> & K2 & L2).
        rewrite log_log.
        destruct r2 as [[]|e2]; eexists _, _, new1, new2; simpl; repeat split; auto.
      * eexists _, _, new1, []. simpl. rewrite app_nil_r. repeat split; auto.
    + eexists _, _, [], []. simpl. rewrite log_nil. repeat split; auto.
  - eexists _, _, [], []. simpl. rewrite log_nil. repeat split; auto.
  - eexists _, _, [], []. simpl. rewrite log_nil. repeat split; auto.
Qed.

(** ** The hands a tick translates *)

Lemma stored_other_side (hands : list (list coord)) :
  forall (d : hands_dict) (b : bool),
    Forall (fun l => is_right_hand l = Ok b) hands ->
    getitem (stored d hands) (if b then Left else Right)
    = getitem d (if b then Left else Right).
Proof.
  induction hands as [|landmarks rest IH]; intros d b H; simpl; [reflexivity|].
  inversion H as [|? ? H1 H2]; subst.
  rewrite (IH _ b H2). apply is_right_hand_Ok in H1. rewrite <- H1.
  now destruct b.
Qed.

Lemma stored_satisfy (P : list coord -> Prop) (hands : list (list coord)) :
  forall d : hands_dict,
    hands_satisfy P d -> Forall P hands -> hands_satisfy P (stored d hands).
Proof.
  induction hands as [|landmarks rest IH]; intros d Hd H; simpl; [exact Hd|].
  inversion H as [|? ? H1 H2]; subst. apply IH; [|exact H2].
  intros key points.
  destruct (_ <? _), key; simpl; intros E;
    try (injection E as <-; exact H1);
    try (apply (Hd Right _ E)); apply (Hd Left _ E).
Qed.

Lemma track_hands_satisfy (P : list coord -> Prop) (cams : list camera) :
  forall self self' : HandTracker,
    tracker_inv self ->
    hands_satisfy P (read (heap self) empty_landmarks) ->
    Forall (fun cam => Forall P (multi_hand_landmarks cam)) cams ->
    track self cams = Ok self' ->
    hands_satisfy P (read (heap self') empty_landmarks).
Proof.
  induction cams as [|cam rest IH]; intros self self' Hinv Hd Hall; simpl.
  - now intros [= <-].
  - inversion Hall as [|? ? H1 H2]; subst.
    destruct (get_image_data self cam) as [[d|e] self1] eqn:E; [|discriminate].
    apply (IH self1 self' (get_image_data_inv _ _ _ _ Hinv E)); [|exact H2].
    destruct d as [ok current past|].
    + destruct (get_image_data_frame _ _ _ _ _ _ Hinv E)
        as (_ & _ & _ & -> & _ & _ & Hs & _).
      rewrite Hs. now apply stored_satisfy.
    + unfold get_image_data in E.
      destruct (isOpened cam); [|now injection E as <-].
      destruct (success cam); [|now injection E as <-].
      unfold copy in E.
      destruct (multi_hand_landmarks cam); [discriminate|].
      destruct (store_hands _ _) as [[u|e] self2]; discriminate.
Qed.

Lemma new_tracker_hands (P : list coord -> Prop) :
  hands_satisfy P (read (heap new_tracker) empty_landmarks).
Proof.
  intros [|] points; discriminate.
Qed.

Lemma regular_hand_18 (hands : list (list coord)) :
  Forall regular_hand hands -> Forall (fun l => (18 <= List.length l)%nat) hands.
Proof.
  apply Forall_impl. intros l [H _]. lia.
Qed.

(** A tick with a capture, from a state in which the invariant holds. *)
Lemma update_frame (self : GUI) (hands : list (list coord)) :
  tracker_inv (hand_tracker self) ->
  Forall (fun l => (18 <= List.length l)%nat) hands ->
  let d := read (heap (hand_tracker self)) empty_landmarks in
  exists tracker,
    update self (frame hands)
    = match (translate_hand (translate_landmarks_to_mouse_action (translator self))
               (stored d hands) d Left ;;;
             translate_hand (translate_landmarks_to_keyboard_action (translator self))
               (stored d hands) d Right)%os (screen self) with
      | (Ok _, os) =>
          (Ok tt, {| hand_tracker := tracker; translator := translator self;
                     screen := os; scheduled := S (scheduled self) |})
      | (Raise e, os) =>
          (Raise e, {| hand_tracker := tracker; translator := translator self;
                       screen := os; scheduled := scheduled self |})
      end.
Proof.
  intros Hinv Hh d.
  destruct (get_image_data_reached (hand_tracker self) (frame hands) Hinv
              eq_refl eq_refl Hh) as (tracker & E & _ & _ & H1 & H2 & _).
  exists tracker. unfold update. rewrite E.
  cbn [multi_hand_landmarks frame] in H1. now rewrite H1, H2.
Qed.

Lemma mouse_hand_idle (self : Translator) (d d' : hands_dict) (os : OS) :
  hands_satisfy regular_hand d ->
  (0 <? shake_sensitivity self) = true ->
  getitem d Left = empty_landmark_list \/ getitem d' Left = getitem d Left ->
  translate_hand (translate_landmarks_to_mouse_action self) d' d Left os = (Ok tt, os)
  \/ translate_hand (translate_landmarks_to_mouse_action self) d' d Left os
     = (Raise OverflowError, os).
Proof.
  intros Hd Hs H. unfold translate_hand.
  destruct H as [E|E].
  - rewrite E. simpl. rewrite andb_false_r. now left.
  - rewrite E. destruct (getitem d Left) as [|points] eqn:G; simpl; [now left|].
    destruct (Hd Left points G) as [L F].
    assert (Hne : points <> []) by (intros ->; discriminate).
    rewrite (mouse_outcome_run _ _ _ _ L Hne).
    destruct (mouse_outcome_same self (position os) points (finite_pt _ 0 F) Hs)
      as [-> | ->]; simpl; [left; now rewrite log_nil|now right].
Qed.

Lemma keyboard_hand_idle (self : Translator) (d d' : hands_dict) (os : OS) :
  hands_satisfy regular_hand d ->
  (0 <? shake_sensitivity self + 0.008) = true ->
  getitem d Right = empty_landmark_list \/ getitem d' Right = getitem d Right ->
  translate_hand (translate_landmarks_to_keyboard_action self) d' d Right os
  = (Ok tt, os)
  \/ translate_hand (translate_landmarks_to_keyboard_action self) d' d Right os
     = (Raise OverflowError, os).
Proof.
  intros Hd Hs H. unfold translate_hand.
  destruct H as [E|E].
  - rewrite E. simpl. rewrite andb_false_r. now left.
  - rewrite E. destruct (getitem d Right) as [|points] eqn:G; simpl; [now left|].
    destruct (Hd Right points G) as [L F].
    rewrite (keyboard_outcome_run _ _ _ _ L L).
    destruct (keyboard_outcome_same self points) as [-> | ->]; simpl.
    + intros _. split; [exact (finite_pt _ 0 F)|exact Hs].
    + left. now rewrite log_nil.
    + now right.
Qed.

(** X16: the mouse is driven only by a left hand that is in the frame and
    was held before.  From a state reached through hands of 21 finite
    points, with a shake sensitivity above zero, a tick whose frame has no
    left hand, or before which no left hand was held, makes no call to the
    mouse: the calls it adds are keyboard calls. *)
Theorem mouse_needs_a_left_hand_seen_before (cams : list camera) (self : GUI)
    (hands : list (list coord)) :
  track new_tracker cams = Ok (hand_tracker self) ->
  Forall (fun cam => Forall regular_hand (multi_hand_landmarks cam)) cams ->
  Forall regular_hand hands ->
  (0 <? shake_sensitivity (translator self)) = true ->
  Forall (fun l => is_right_hand l = Ok true) hands
  \/ getitem (read (heap (hand_tracker self))
                (current_hand_landmarks (hand_tracker self))) Left
     = empty_landmark_list ->
  exists r self' new,
    update self (frame hands) = (r, self')
    /\ screen self' = log (screen self) new
    /\ forallb is_keyboard_call new = true.
Proof.
  intros Ht Hcams Hh Hs Hside.
  pose proof (track_inv _ _ _ new_tracker_inv Ht) as Hinv.
  pose proof (track_hands_satisfy regular_hand cams _ _ new_tracker_inv
                (new_tracker_hands _) Hcams Ht) as Hd.
  destruct (update_frame self hands Hinv (regular_hand_18 _ Hh)) as (tracker & ->).
  destruct Hinv as (Hc & _). rewrite Hc in Hside.
  set (d := read (heap (hand_tracker self)) empty_landmarks) in *.
  assert (Hidle : getitem d Left = empty_landmark_list
                  \/ getitem (stored d hands) Left = getitem d Left).
  { destruct Hside as [H|H]; [right|now left].
    apply (stored_other_side hands d true H). }
  unfold bind.
  destruct (mouse_hand_idle (translator self) d (stored d hands) (screen self)
              Hd Hs Hidle) as [-> | ->].
  - destruct (translate_hand_adds_only is_keyboard_call 2
                (translate_landmarks_to_keyboard_action (translator self))
                (stored d hands) d Right
                (fun a b => keyboard_adds_only (translator self) a b) (screen self))
      as (r & new & -> & K & _).
    destruct r as [[]|e]; eexists _, _, new; repeat split; auto.
  - eexists _, _, []. simpl. rewrite log_nil. repeat split.
Qed.

(** After a frame with both hands, a frame with the right hand only. *)
Lemma mouse_needs_a_left_hand_seen_before_witness :
  exists r self' new,
    update (gui_after [frame [right_fist; left_pinch]])
      (frame [right_hand_of fist_apart])
    = (r, self')
    /\ screen self' = log desktop new
    /\ forallb is_keyboard_call new = true.
Proof.
  apply (mouse_needs_a_left_hand_seen_before [frame [right_fist; left_pinch]]
           (gui_after [frame [right_fist; left_pinch]])
           [right_hand_of fist_apart] eq_refl).
  - repeat constructor.
  - repeat constructor.
  - reflexivity.
  - left. repeat constructor.
Defined.

(** X17: the keyboard is driven only by a right hand that is in the frame
    and was held before.  From a state reached through hands of 21 finite
    points, with shakeSensitivity + 0.008 above zero, a tick whose frame
    has no right hand, or before which no right hand was held, makes no
    call to the keyboard: the calls it adds are mouse calls. *)
Theorem keyboard_needs_a_right_hand_seen_before (cams : list camera) (self : GUI)
    (hands : list (list coord)) :
  track new_tracker cams = Ok (hand_tracker self) ->
  Forall (fun cam => Forall regular_hand (multi_hand_landmarks cam)) cams ->
  Forall regular_hand hands ->
  (0 <? shake_sensitivity (translator self) + 0.008) = true ->
  Forall (fun l => is_right_hand l = Ok false) hands
  \/ getitem (read (heap (hand_tracker self))
                (current_hand_landmarks (hand_tracker self))) Right
     = empty_landmark_list ->
  exists r self' new,
    update self (frame hands) = (r, self')
    /\ screen self' = log (screen self) new
    /\ forallb is_mouse_call new = true.
Proof.
  intros Ht Hcams Hh Hs Hside.
  pose proof (track_inv _ _ _ new_tracker_inv Ht) as Hinv.
  pose proof (track_hands_satisfy regular_hand cams _ _ new_tracker_inv
                (new_tracker_hands _) Hcams Ht) as Hd.
  destruct (update_frame self hands Hinv (regular_hand_18 _ Hh)) as (tracker & ->).
  destruct Hinv as (Hc & _). rewrite Hc in Hside.
  set (d := read (heap (hand_tracker self)) empty_landmarks) in *.
  assert (Hidle : getitem d Right = empty_landmark_list
                  \/ getitem (stored d hands) Right = getitem d Right).
  { destruct Hside as [H|H]; [right|now left].
    apply (stored_other_side hands d false H). }
  unfold bind.
  destruct (translate_hand_adds_only is_mouse_call 1
              (translate_landmarks_to_mouse_action (translator self))
              (stored d hands) d Left
              (fun a b => mouse_adds_only (translator self) a b) (screen self))
    as (r & new & -> & K & _).
  destruct r as [[]|e].
  - destruct (keyboard_hand_idle (translator self) d (stored d hands)
                (log (screen self) new) Hd Hs Hidle) as [-> | ->];
      eexists _, _, new; repeat split; auto.
  - eexists _, _, new. repeat split; auto.
Qed.

(** The first frame in which the right hand is seen. *)
Lemma keyboard_needs_a_right_hand_seen_before_witness :
  exists r self' new,
    update (gui_after [frame [left_pinch]]) (frame [right_fist; left_pinch])
    = (r, self')
    /\ screen self' = log desktop new
    /\ forallb is_mouse_call new = true.
Proof.
  apply (keyboard_needs_a_right_hand_seen_before [frame [left_pinch]]
           (gui_after [frame [left_pinch]]) [right_fist; left_pinch] eq_refl).
  - repeat constructor.
  - repeat constructor.
  - reflexivity.
  - right. reflexivity.
Defined.

(** X18: hands that are gone do nothing.  From a state reached through
    hands of 21 finite points, with a shake sensitivity and
    shakeSensitivity + 0.008 above zero, a tick whose frame has no hand
    makes no call at all, whatever hands were held before; it calls
    [window.after], or raises the [OverflowError] of a distance. *)
Theorem frame_without_hands_calls_nothing (cams : list camera) (self : GUI) :
  track new_tracker cams = Ok (hand_tracker self) ->
  Forall (fun cam => Forall regular_hand (multi_hand_landmarks cam)) cams ->
  (0 <? shake_sensitivity (translator self)) = true ->
  (0 <? shake_sensitivity (translator self) + 0.008) = true ->
  exists r self',
    update self (frame []) = (r, self')
    /\ screen self' = screen self
    /\ (r = Ok tt /\ scheduled self' = S (scheduled self)
        \/ r = Raise OverflowError /\ scheduled self' = scheduled self).
Proof.
  intros Ht Hcams Hs Hs'.
  pose proof (track_inv _ _ _ new_tracker_inv Ht) as Hinv.
  pose proof (track_hands_satisfy regular_hand cams _ _ new_tracker_inv
                (new_tracker_hands _) Hcams Ht) as Hd.
  destruct (update_frame self [] Hinv (Forall_nil _)) as (tracker & ->).
  set (d := read (heap (hand_tracker self)) empty_landmarks) in *.
  cbn [stored]. unfold bind.
  destruct (mouse_hand_idle (translator self) d d (screen self) Hd Hs
              (or_intror eq_refl)) as [-> | ->].
  - destruct (keyboard_hand_idle (translator self) d d (screen self) Hd Hs'
                (or_intror eq_refl)) as [-> | ->];
      eexists _, _; repeat split; auto.
  - eexists _, _; repeat split; auto.
Qed.

(** Both hands were seen, and none is in the frame. *)
Lemma frame_without_hands_calls_nothing_witness :
  exists r self',
    update (gui_after [frame [right_fist; left_pinch]]) (frame []) = (r, self')
    /\ screen self' = desktop
    /\ (r = Ok tt /\ scheduled self' = 2%nat
        \/ r = Raise OverflowError /\ scheduled self' = 1%nat).
Proof.
  apply (frame_without_hands_calls_nothing [frame [right_fist; left_pinch]]
           (gui_after [frame [right_fist; left_pinch]]) eq_refl).
  - repeat constructor.
  - reflexivity.
  - reflexivity.
Defined.

(** * The distance is not negative *)

Lemma get_3d_distance_nonneg (a b : coord) (d : float) :
  finite_coord a = true -> finite_coord b = true ->
  get_3d_distance a b = Ok d -> nonneg (Prim2SF d).
Proof.
  rewrite !finite_coord_spec. intros (Hxa & Hya & Hza) (Hxb & Hyb & Hzb).
  unfold get_3d_distance.
  destruct (PyFloat.pow2 (x a - x b)) as [dx|] eqn:Ex; [|discriminate].
  destruct (PyFloat.pow2 (y a - y b)) as [dy|] eqn:Ey; [|discriminate].
  destruct (PyFloat.pow2 (z a - z b)) as [dz|] eqn:Ez; [|discriminate].
  apply FloatFacts.pow2_nonneg in Ex, Ey, Ez;
    try (apply FloatFacts.sub_not_nan; assumption).
  simpl. unfold PyFloat.math_sqrt.
  destruct (_ <? 0); [discriminate|]. intros [= <-].
  apply FloatFacts.sqrt_nonneg. now repeat apply FloatFacts.add_nonneg.
Qed.

Lemma nonneg_leb_zero (d : float) : nonneg (Prim2SF d) -> (0 <=? d) = true.
Proof.
  rewrite FloatAxioms.leb_spec. change (Prim2SF 0) with (S754_zero false).
  destruct (Prim2SF d) as [s|s| |s m e]; simpl; intros H; subst;
    try reflexivity; contradiction.
Qed.

(** X19: between two points with finite coordinates [get_3d_distance]
    returns a number that is zero or above (plus infinity when a difference
    is out of range), or raises [OverflowError] when a square is out of
    range; on every input it raises nothing else, so the [ValueError] of
    [math.sqrt] never occurs. *)
Theorem get_3d_distance_is_not_negative (a b : coord) :
  (forall e, get_3d_distance a b = Raise e -> e = OverflowError)
  /\ (finite_coord a = true -> finite_coord b = true ->
      forall d, get_3d_distance a b = Ok d ->
                (0 <=? d) = true /\ (d <? 0) = false).
Proof.
  split.
  - apply get_3d_distance_raises_OverflowError.
  - intros Ha Hb d Hd.
    pose proof (get_3d_distance_nonneg a b d Ha Hb Hd) as N.
    split; [now apply nonneg_leb_zero|].
    apply FloatFacts.ltb_zero_result. now right.
Qed.

Lemma get_3d_distance_is_not_negative_witness :
  exists d, get_3d_distance thumb_c far = Ok d /\ (0 <=? d) = true.
Proof.
  exists 0.25. split; [reflexivity|].
  apply (proj2 (get_3d_distance_is_not_negative thumb_c far) eq_refl eq_refl 0.25
           eq_refl).
Defined.

(** [HandTracker.__init__] on a source that opens gives [new_tracker]. *)
Lemma HandTracker_init_opened : HandTracker_init true = Ok new_tracker.
Proof.
  reflexivity.
Qed.
